(** * The contact form and the scroll-to-top component, verified

    A shallow embedding of [src/pages/Contact.tsx] (the form state, the
    schema check, [handleSubmit], [handleChange] and the parts of the render
    that read the state) and of [src/components/layout/ScrollToTop.tsx].

    JavaScript strings are sequences of UTF-16 code units, so a string is a
    [list N]; [String.prototype.trim], template literals and
    [JSON.stringify] are written out on that representation.  The two parts
    of the zod library that the source leaves to the library (the regular
    expression behind [.email()] and the wording of the default messages)
    are the fields of the class [ZodLib]; every general statement holds for
    each instance of it. *)

From Stdlib Require Import NArith List String Ascii Bool Lia.
From stdpp Require Import base option list gmap.
Import ListNotations.

Local Open Scope N_scope.

(** ** JavaScript strings *)

Module Js.

(** A string value: its UTF-16 code units. *)
Definition jsstring : Type := list N.

(** A literal of the source, written with ASCII characters. *)
Definition lit (s : string) : jsstring :=
  map N_of_ascii (list_ascii_of_string s).

(** ToBoolean on a string: only the empty string is falsy. *)
Definition truthy (s : jsstring) : bool :=
  match s with [] => false | _ :: _ => true end.

(** [s || undefined]. *)
Definition or_undefined (s : jsstring) : option jsstring :=
  if truthy s then Some s else None.

(** WhiteSpace and LineTerminator of ECMA-262: what [trim] strips.  All of
    them lie in the basic plane, so a code unit decides. *)
Definition is_white_space (c : N) : bool :=
  (c =? 9) || (c =? 10) || (c =? 11) || (c =? 12) || (c =? 13) || (c =? 32)
  || (c =? 160) || (c =? 5760) || ((8192 <=? c) && (c <=? 8202))
  || (c =? 8232) || (c =? 8233) || (c =? 8239) || (c =? 8287)
  || (c =? 12288) || (c =? 65279).

Fixpoint trimStart (s : jsstring) : jsstring :=
  match s with
  | [] => []
  | c :: rest => if is_white_space c then trimStart rest else s
  end.

Definition trimEnd (s : jsstring) : jsstring := rev (trimStart (rev s)).

(** [String.prototype.trim]. *)
Definition trim (s : jsstring) : jsstring := trimEnd (trimStart s).

(** Number::toString for the non-negative integers a status code is. *)
Fixpoint digits (d : Decimal.uint) : jsstring :=
  match d with
  | Decimal.Nil => []
  | Decimal.D0 d => 48 :: digits d
  | Decimal.D1 d => 49 :: digits d
  | Decimal.D2 d => 50 :: digits d
  | Decimal.D3 d => 51 :: digits d
  | Decimal.D4 d => 52 :: digits d
  | Decimal.D5 d => 53 :: digits d
  | Decimal.D6 d => 54 :: digits d
  | Decimal.D7 d => 55 :: digits d
  | Decimal.D8 d => 56 :: digits d
  | Decimal.D9 d => 57 :: digits d
  end.

Definition NumberToString (n : N) : jsstring := digits (N.to_uint n).

(** *** JSON.stringify on an object whose properties are strings or undefined *)

Definition hex_digit (n : N) : N := if n <? 10 then 48 + n else 87 + n.

(** UnicodeEscape: a backslash, [u] and four lower-case hexadecimal digits. *)
Definition UnicodeEscape (c : N) : jsstring :=
  [92; 117; hex_digit ((c / 4096) mod 16); hex_digit ((c / 256) mod 16);
   hex_digit ((c / 16) mod 16); hex_digit (c mod 16)].

Definition is_leading_surrogate (c : N) : bool := (55296 <=? c) && (c <=? 56319).
Definition is_trailing_surrogate (c : N) : bool := (56320 <=? c) && (c <=? 57343).

(** One code unit that is not part of a surrogate pair. *)
Definition escape_unit (c : N) : jsstring :=
  if c =? 8 then [92; 98]
  else if c =? 9 then [92; 116]
  else if c =? 10 then [92; 110]
  else if c =? 12 then [92; 102]
  else if c =? 13 then [92; 114]
  else if c =? 34 then [92; 34]
  else if c =? 92 then [92; 92]
  else if (c <? 32) || is_leading_surrogate c || is_trailing_surrogate c
       then UnicodeEscape c
  else [c].

Fixpoint quote_units (s : jsstring) : jsstring :=
  match s with
  | [] => []
  | c :: rest =>
      if is_leading_surrogate c then
        match rest with
        | d :: rest' =>
            if is_trailing_surrogate d then c :: d :: quote_units rest'
            else UnicodeEscape c ++ quote_units rest
        | [] => UnicodeEscape c
        end
      else escape_unit c ++ quote_units rest
  end.

(** QuoteJSONString. *)
Definition QuoteJSONString (s : jsstring) : jsstring :=
  [34] ++ quote_units s ++ [34].

(** An object literal in the order its properties are written; [None] is
    [undefined]. *)
Definition jsobject : Type := list (jsstring * option jsstring).

(** SerializeJSONProperty: a property whose value is undefined is left out. *)
Definition SerializeJSONProperty (kv : jsstring * option jsstring) : option jsstring :=
  match snd kv with
  | Some v => Some (QuoteJSONString (fst kv) ++ [58] ++ QuoteJSONString v)
  | None => None
  end.

Fixpoint join (sep : jsstring) (parts : list jsstring) : jsstring :=
  match parts with
  | [] => []
  | [p] => p
  | p :: ps => p ++ sep ++ join sep ps
  end.

(** SerializeJSONObject with no indentation. *)
Definition JSON_stringify (o : jsobject) : jsstring :=
  [123] ++ join [44] (omap SerializeJSONProperty o) ++ [125].

End Js.

(** ** The part of zod that [contactSchema] uses *)

Module Zod.
Import Js.

(** The checks of a string schema, kept in the order the builder calls add
    them: [.trim()], [.min(n)], [.max(n)], [.email()]. *)
Inductive ZodStringCheck : Type :=
  | check_trim
  | check_min (value : nat)
  | check_max (value : nat)
  | check_email.

Inductive ZodIssueCode : Type :=
  | invalid_type
  | too_small (minimum : nat)
  | too_big (maximum : nat)
  | invalid_string_email.

Record ZodIssue : Type := mkIssue {
  code : ZodIssueCode;
  path : list jsstring;
  message : jsstring
}.

(** What the source leaves to the library: the test behind [.email()] and
    the message the default error map gives an issue. *)
Class ZodLib : Type := {
  emailRegex_test : jsstring -> bool;
  errorMap : ZodIssueCode -> jsstring
}.

Inductive ZodType : Type :=
  | ZodString (checks : list ZodStringCheck)
  | ZodOptional (inner : ZodType).

(** [z.object({...})]: the shape, in the order of its keys. *)
Definition ZodObject : Type := list (jsstring * ZodType).

(** The outcome of [schema.parse(data)]: it returns, or throws a ZodError
    that carries the issues. *)
Inductive ParseOutcome : Type :=
  | returns
  | throwsZodError (issues : list ZodIssue).

Section Parse.
Context `{ZodLib}.

Definition addIssue (p : list jsstring) (c : ZodIssueCode) : ZodIssue :=
  {| code := c; path := p; message := errorMap c |}.

(** The loop of ZodString's parser over its checks: [trim] rewrites the
    data the later checks see, every other check may add an issue, and no
    check stops the loop. *)
Fixpoint ZodString_checks (checks : list ZodStringCheck) (p : list jsstring)
    (data : jsstring) : list ZodIssue :=
  match checks with
  | [] => []
  | check_trim :: cs => ZodString_checks cs p (trim data)
  | check_min value :: cs =>
      (if (length data <? value)%nat then [addIssue p (too_small value)] else [])
      ++ ZodString_checks cs p data
  | check_max value :: cs =>
      (if (value <? length data)%nat then [addIssue p (too_big value)] else [])
      ++ ZodString_checks cs p data
  | check_email :: cs =>
      (if emailRegex_test data then [] else [addIssue p invalid_string_email])
      ++ ZodString_checks cs p data
  end.

(** Parsing one property value; [None] is [undefined]. *)
Fixpoint ZodType_parse (t : ZodType) (p : list jsstring)
    (input : option jsstring) : list ZodIssue :=
  match t with
  | ZodString checks =>
      match input with
      | Some data => ZodString_checks checks p data
      | None => [addIssue p invalid_type]
      end
  | ZodOptional inner =>
      match input with
      | Some _ => ZodType_parse inner p input
      | None => []
      end
  end.

(** ZodObject's parser: each key of the shape in turn, its issues under the
    path of that key; keys outside the shape are stripped without an issue. *)
Definition ZodObject_issues (shape : ZodObject)
    (data : jsstring -> option jsstring) : list ZodIssue :=
  flat_map (fun kt => ZodType_parse (snd kt) [fst kt] (data (fst kt))) shape.

Definition parse (shape : ZodObject) (data : jsstring -> option jsstring)
    : ParseOutcome :=
  match ZodObject_issues shape data with
  | [] => returns
  | issues => throwsZodError issues
  end.

End Parse.
End Zod.

(** ** src/pages/Contact.tsx *)

Module Contact.
Import Js.

Definition WORKER_ENDPOINT : jsstring :=
  lit "https://contact-form.digbadara-finance.workers.dev".

Definition contactSchema : Zod.ZodObject :=
  [ (lit "name",
      Zod.ZodString [Zod.check_trim; Zod.check_min 1; Zod.check_max 100]);
    (lit "email",
      Zod.ZodString [Zod.check_trim; Zod.check_email; Zod.check_max 255]);
    (lit "eventDate", Zod.ZodOptional (Zod.ZodString []));
    (lit "eventType", Zod.ZodOptional (Zod.ZodString []));
    (lit "location",
      Zod.ZodOptional (Zod.ZodString [Zod.check_trim; Zod.check_max 200]));
    (lit "message",
      Zod.ZodString [Zod.check_trim; Zod.check_min 1; Zod.check_max 2000]);
    (lit "_gotcha", Zod.ZodOptional (Zod.ZodString [])) ].

(** The object held by [useState] for the form: seven string properties. *)
Record FormData : Type := mkFormData {
  name : jsstring;
  email : jsstring;
  eventDate : jsstring;
  eventType : jsstring;
  location : jsstring;
  message : jsstring;
  _gotcha : jsstring
}.

Definition emptyForm : FormData :=
  {| name := []; email := []; eventDate := []; eventType := [];
     location := []; message := []; _gotcha := [] |}.

(** The own properties of the object, in insertion order. *)
Definition entries (fd : FormData) : list (jsstring * jsstring) :=
  [ (lit "name", name fd); (lit "email", email fd);
    (lit "eventDate", eventDate fd); (lit "eventType", eventType fd);
    (lit "location", location fd); (lit "message", message fd);
    (lit "_gotcha", _gotcha fd) ].

(** Property read [formData[key]]. *)
Definition get (fd : FormData) (key : jsstring) : option jsstring :=
  snd <$> List.find (fun kv => bool_decide (fst kv = key)) (entries fd).

(** [type FormErrors = { [key: string]: string }]. *)
Abbreviation FormErrors := (gmap jsstring jsstring).

(** The four [useState] cells of the component. *)
Record State : Type := mkState {
  formData : FormData;
  isSubmitting : bool;
  errors : FormErrors;
  submitError : option jsstring
}.

Definition initialState : State :=
  {| formData := emptyForm; isSubmitting := false; errors := ∅;
     submitError := None |}.

Inductive ToastVariant : Type := destructive.

Record Toast : Type := mkToast {
  title : jsstring;
  description : jsstring;
  variant : option ToastVariant
}.

Record RequestInit : Type := mkRequestInit {
  method : jsstring;
  headers : list (jsstring * jsstring);
  body : jsstring
}.

(** What the handlers do to the world outside the component state. *)
Inductive Effect : Type :=
  | preventDefault
  | fetch (url : jsstring) (init : RequestInit)
  | toast (t : Toast).

(** What the code reads of a response. *)
Record Response : Type := mkResponse {
  ok : bool;
  status : N
}.

(** A thrown value, as far as the [catch] block tells values apart:
    [error instanceof Error] and then [error.message]. *)
Inductive JsValue : Type :=
  | ErrorObject (error_message : jsstring)
  | OtherValue.

(** How the promise returned by [fetch] settles. *)
Inductive FetchOutcome : Type :=
  | fulfilled (response : Response)
  | rejected (reason : JsValue).

(** *** State setters and effects: a state and writer monad *)

Definition Act (A : Type) : Type := State -> A * State * list Effect.

Definition ret {A : Type} (a : A) : Act A := fun st => (a, st, []).

Definition bind {A B : Type} (m : Act A) (k : A -> Act B) : Act B :=
  fun st =>
    let '(a, st1, e1) := m st in
    let '(b, st2, e2) := k a st1 in
    (b, st2, e1 ++ e2).

Declare Scope act_scope.
Delimit Scope act_scope with act.
Notation "x <- m ;; k" := (bind m (fun x => k))
  (at level 20, m at level 99, k at level 200, only parsing) : act_scope.
Notation "m ;; k" := (bind m (fun _ => k))
  (at level 100, k at level 200, right associativity, only parsing) : act_scope.

Definition emit (e : Effect) : Act unit := fun st => (tt, st, [e]).

Definition setFormData (v : FormData) : Act unit := fun st =>
  (tt, {| formData := v; isSubmitting := isSubmitting st;
          errors := errors st; submitError := submitError st |}, []).

Definition setIsSubmitting (v : bool) : Act unit := fun st =>
  (tt, {| formData := formData st; isSubmitting := v;
          errors := errors st; submitError := submitError st |}, []).

Definition setErrors (v : FormErrors) : Act unit := fun st =>
  (tt, {| formData := formData st; isSubmitting := isSubmitting st;
          errors := v; submitError := submitError st |}, []).

Definition setSubmitError (v : option jsstring) : Act unit := fun st =>
  (tt, {| formData := formData st; isSubmitting := isSubmitting st;
          errors := errors st; submitError := v |}, []).

(** The parts of what an action returns. *)
Definition value_of {A : Type} (r : A * State * list Effect) : A := fst (fst r).
Definition state_of {A : Type} (r : A * State * list Effect) : State := snd (fst r).
Definition effects_of {A : Type} (r : A * State * list Effect) : list Effect := snd r.

(** *** The handlers *)

Section Handlers.
Context `{Zod.ZodLib}.
Local Open Scope act_scope.

(** The [forEach] of [validateForm]: the first path element of each issue,
    when truthy, is the key its message is stored under; a later issue of
    the same key overwrites an earlier one. *)
Definition newErrors (issues : list Zod.ZodIssue) : FormErrors :=
  fold_left
    (fun acc err =>
       match Zod.path err with
       | key :: _ => if truthy key then <[key := Zod.message err]> acc else acc
       | [] => acc
       end)
    issues ∅.

(** [validateForm], closed over the [formData] of the render. *)
Definition validateForm (formData : FormData) : Act bool :=
  match Zod.parse contactSchema (get formData) with
  | Zod.returns => setErrors ∅ ;; ret true
  | Zod.throwsZodError issues => setErrors (newErrors issues) ;; ret false
  end.

(** The object literal passed to [JSON.stringify]. *)
Definition payload (formData : FormData) : jsobject :=
  [ (lit "name", Some (trim (name formData)));
    (lit "email", Some (trim (email formData)));
    (lit "eventDate", or_undefined (eventDate formData));
    (lit "eventType", or_undefined (eventType formData));
    (lit "location", or_undefined (trim (location formData)));
    (lit "message", Some (trim (message formData)));
    (lit "_gotcha", Some (_gotcha formData)) ].

Definition request (formData : FormData) : RequestInit :=
  {| method := lit "POST";
     headers := [(lit "Content-Type", lit "application/json")];
     body := JSON_stringify (payload formData) |}.

(** [handleSubmit] up to its [await]: the result says whether a request was
    sent and the handler is now waiting for it. *)
Definition handleSubmit_sync (formData : FormData) : Act bool :=
  emit preventDefault ;;
  setSubmitError None ;;
  valid <- validateForm formData ;;
  if negb valid then ret false
  else
    setIsSubmitting true ;;
    emit (fetch WORKER_ENDPOINT (request formData)) ;;
    ret true.

(** The [catch] block. *)
Definition handleSubmit_catch (error : JsValue) : Act unit :=
  let message :=
    match error with
    | ErrorObject m => m
    | OtherValue => lit "Submission failed."
    end in
  setSubmitError (Some message) ;;
  emit (toast {| title := lit "Submission Failed"; description := message;
                 variant := Some destructive |}).

(** [handleSubmit] from the moment the promise of [fetch] settles: the rest
    of the [try] block, the [catch] block, and [finally]. *)
Definition handleSubmit_resume (outcome : FetchOutcome) : Act unit :=
  match outcome with
  | fulfilled response =>
      if negb (ok response) then
        handleSubmit_catch
          (ErrorObject (lit "Request failed (" ++ NumberToString (status response)
                        ++ lit ")"))
      else
        emit (toast {| title := lit "Request Received";
                       description :=
                         lit "Thank you for your inquiry. We'll be in touch within 24 hours.";
                       variant := None |}) ;;
        setFormData emptyForm
  | rejected error => handleSubmit_catch error
  end ;;
  setIsSubmitting false.

(** One whole invocation, from the submit event to the end of the handler,
    when nothing else touches the state while the request is under way. *)
Definition handleSubmit (outcome : FetchOutcome) (formData : FormData) : Act unit :=
  awaiting <- handleSubmit_sync formData ;;
  if (awaiting : bool) then handleSubmit_resume outcome else ret tt.

(** The invocation bound to the state of the latest render. *)
Definition submit (outcome : FetchOutcome) (st : State) : State * list Effect :=
  let '(_, st', effects) := handleSubmit outcome (formData st) st in (st', effects).

End Handlers.

(** [handleChange]: the updater given to [setFormData].  The inputs of the
    form are named after properties of the object; a name that is none of
    them would add a property that no code reads, and the record keeps only
    the seven that are read. *)
Definition handleChange (target_name target_value : jsstring) (prev : FormData)
    : FormData :=
  if bool_decide (target_name = lit "name") then
    mkFormData target_value (email prev) (eventDate prev) (eventType prev)
               (location prev) (message prev) (_gotcha prev)
  else if bool_decide (target_name = lit "email") then
    mkFormData (name prev) target_value (eventDate prev) (eventType prev)
               (location prev) (message prev) (_gotcha prev)
  else if bool_decide (target_name = lit "eventDate") then
    mkFormData (name prev) (email prev) target_value (eventType prev)
               (location prev) (message prev) (_gotcha prev)
  else if bool_decide (target_name = lit "eventType") then
    mkFormData (name prev) (email prev) (eventDate prev) target_value
               (location prev) (message prev) (_gotcha prev)
  else if bool_decide (target_name = lit "location") then
    mkFormData (name prev) (email prev) (eventDate prev) (eventType prev)
               target_value (message prev) (_gotcha prev)
  else if bool_decide (target_name = lit "message") then
    mkFormData (name prev) (email prev) (eventDate prev) (eventType prev)
               (location prev) target_value (_gotcha prev)
  else if bool_decide (target_name = lit "_gotcha") then
    mkFormData (name prev) (email prev) (eventDate prev) (eventType prev)
               (location prev) (message prev) target_value
  else prev.

Definition change (target_name target_value : jsstring) (st : State) : State :=
  {| formData := handleChange target_name target_value (formData st);
     isSubmitting := isSubmitting st; errors := errors st;
     submitError := submitError st |}.

(** *** What the render reads of the state *)

(** [disabled={isSubmitting}] on the submit button. *)
Definition button_disabled (st : State) : bool := isSubmitting st.

Definition button_label (st : State) : jsstring :=
  if isSubmitting st then lit "Sending..." else lit "Request Availability".

(** [{submitError && <div>...</div>}]: the banner is rendered when
    [submitError] is truthy. *)
Definition banner (st : State) : option jsstring :=
  match submitError st with
  | Some m => if truthy m then Some m else None
  | None => None
  end.

(** The value the hidden input shows and reports: [value={formData._gotcha}]. *)
Definition honeypot_value (st : State) : jsstring := _gotcha (formData st).

(** *** The page as a transition system *)

(** The events the component reacts to: a change event of an input, a
    submit event of the form, and the settling of the request under way. *)
Inductive Event : Type :=
  | EvChange (target_name target_value : jsstring)
  | EvSubmit
  | EvSettle (outcome : FetchOutcome).

(** The component state and whether a handler waits for its request. *)
Record Page : Type := mkPage {
  store : State;
  awaiting : bool
}.

Definition initialPage : Page := {| store := initialState; awaiting := false |}.

Section Machine.
Context `{Zod.ZodLib}.

(** One event.  The submit button is disabled while [isSubmitting] holds, so
    a submit event arrives only when it does not; a request settles only
    when one is under way.  The render holds inputs named _gotcha, name,
    email and message; a change event is kept as general in the name of its
    target as [handleChange] is. *)
Definition step (ev : Event) (p : Page) : option (Page * list Effect) :=
  match ev with
  | EvChange n v => Some ({| store := change n v (store p); awaiting := awaiting p |}, [])
  | EvSubmit =>
      if button_disabled (store p) then None
      else
        let '(sent, st', effects) :=
          handleSubmit_sync (formData (store p)) (store p) in
        Some ({| store := st'; awaiting := sent |}, effects)
  | EvSettle outcome =>
      if awaiting p then
        let '(_, st', effects) := handleSubmit_resume outcome (store p) in
        Some ({| store := st'; awaiting := false |}, effects)
      else None
  end.

Fixpoint run (evs : list Event) (p : Page) : option (Page * list Effect) :=
  match evs with
  | [] => Some (p, [])
  | ev :: rest =>
      match step ev p with
      | Some (p1, e1) =>
          match run rest p1 with
          | Some (p2, e2) => Some (p2, e1 ++ e2)
          | None => None
          end
      | None => None
      end
  end.

End Machine.

(** The requests among the effects of a run. *)
Definition requests (effects : list Effect) : list (jsstring * RequestInit) :=
  omap (fun e => match e with fetch url init => Some (url, init) | _ => None end)
       effects.

Definition toasts (effects : list Effect) : list Toast :=
  omap (fun e => match e with toast t => Some t | _ => None end) effects.

End Contact.

(** ** An instance of the library: zod 3.23

    The email test follows the regular expression of that release, matched
    without regard to case: the string does not start with a dot and holds
    no two dots in a row; before the only at sign stands a local part of
    letters, digits, underscore, apostrophe, plus, hyphen and dot whose last
    character is no apostrophe and no dot; after it stand one or more
    labels (a letter or digit, then letters, digits and hyphens), each
    followed by a dot, and a last label of two or more letters.  The
    messages are those of its default error map.  The closed examples of
    this file are computed with this instance. *)

Module Zod3.
Import Js.

Definition is_digit (c : N) : bool := (48 <=? c) && (c <=? 57).
Definition is_letter (c : N) : bool :=
  ((65 <=? c) && (c <=? 90)) || ((97 <=? c) && (c <=? 122)).
Definition is_alnum (c : N) : bool := is_digit c || is_letter c.

(** A character of the local part, and its last character. *)
Definition local_char (c : N) : bool :=
  is_alnum c || (c =? 95) || (c =? 39) || (c =? 43) || (c =? 45) || (c =? 46).
Definition local_last (c : N) : bool :=
  is_alnum c || (c =? 95) || (c =? 43) || (c =? 45).

(** The pieces of [s] between the occurrences of [sep]. *)
Fixpoint split_on (sep : N) (s : jsstring) : list jsstring :=
  match s with
  | [] => [[]]
  | c :: rest =>
      if c =? sep then [] :: split_on sep rest
      else match split_on sep rest with
           | p :: ps => (c :: p) :: ps
           | [] => [[c]]
           end
  end.

Fixpoint has_double_dot (s : jsstring) : bool :=
  match s with
  | [] => false
  | c :: rest =>
      match rest with
      | d :: _ => ((c =? 46) && (d =? 46)) || has_double_dot rest
      | [] => false
      end
  end.

Definition starts_with_dot (s : jsstring) : bool :=
  match s with c :: _ => c =? 46 | [] => false end.

(** A label before a dot, and the last label. *)
Definition label_ok (l : jsstring) : bool :=
  match l with
  | c :: rest => is_alnum c && forallb (fun d => is_alnum d || (d =? 45)) rest
  | [] => false
  end.
Definition tld_ok (l : jsstring) : bool :=
  (2 <=? length l)%nat && forallb is_letter l.

(** One or more labels, each followed by a dot, then the last one. *)
Fixpoint domain_ok (labels : list jsstring) (seen : bool) : bool :=
  match labels with
  | [] => false
  | l :: rest =>
      match rest with
      | [] => seen && tld_ok l
      | _ :: _ => label_ok l && domain_ok rest true
      end
  end.

Definition local_ok (l : jsstring) : bool :=
  match rev l with
  | c :: _ => local_last c && forallb local_char l
  | [] => false
  end.

Definition emailRegex_test (s : jsstring) : bool :=
  negb (starts_with_dot s) && negb (has_double_dot s)
  && match split_on 64 s with
     | [l; d] => local_ok l && domain_ok (split_on 46 d) false
     | _ => false
     end.

Definition errorMap (c : Zod.ZodIssueCode) : jsstring :=
  match c with
  | Zod.invalid_type => lit "Required"
  | Zod.too_small n =>
      lit "String must contain at least " ++ NumberToString (N.of_nat n)
      ++ lit " character(s)"
  | Zod.too_big n =>
      lit "String must contain at most " ++ NumberToString (N.of_nat n)
      ++ lit " character(s)"
  | Zod.invalid_string_email => lit "Invalid email"
  end.

Definition zod3 : Zod.ZodLib :=
  {| Zod.emailRegex_test := emailRegex_test; Zod.errorMap := errorMap |}.

End Zod3.

(** ** src/components/layout/ScrollToTop.tsx *)

Module ScrollToTop.
Import Js.

(** What [useLocation] returns, as far as a route is told apart. *)
Record Location : Type := mkLocation {
  pathname : jsstring;
  search : jsstring;
  hash : jsstring
}.

Inductive ScrollBehavior : Type := smooth | instant | auto.

Record ScrollToOptions : Type := mkScrollToOptions {
  top : N;
  left : N;
  behavior : ScrollBehavior
}.

(** The one effect of the component: a call of [window.scrollTo]. *)
Inductive Effect : Type :=
  | scrollTo (options : ScrollToOptions).

(** The memory of a [useEffect] hook: the dependencies of the last render,
    nothing before the first one. *)
Definition HookCell : Type := option (list jsstring).

(** React compares the dependency arrays element by element with
    [Object.is], which on strings is equality of their code units. *)
Definition areHookInputsEqual (next prev : list jsstring) : bool :=
  bool_decide (next = prev).

(** [useEffect(effect, deps)] in one render: the effect runs after the
    first render and after each render whose dependencies differ from those
    of the render before. *)
Definition useEffect (effect : list Effect) (deps : list jsstring)
    (cell : HookCell) : list Effect * HookCell :=
  match cell with
  | None => (effect, Some deps)
  | Some prev =>
      if areHookInputsEqual deps prev then ([], Some deps)
      else (effect, Some deps)
  end.

(** One render of the component at a location. *)
Definition ScrollToTop (loc : Location) (cell : HookCell)
    : list Effect * HookCell :=
  useEffect [scrollTo {| top := 0; left := 0; behavior := smooth |}]
            [pathname loc; hash loc] cell.

(** The renders of a mounted component along a sequence of locations: the
    effects of each render, in order. *)
Fixpoint renders (locs : list Location) (cell : HookCell) : list (list Effect) :=
  match locs with
  | [] => []
  | loc :: rest =>
      let '(effects, cell') := ScrollToTop loc cell in
      effects :: renders rest cell'
  end.

End ScrollToTop.

(** ** The schema check of the form, unfolded

    What [contactSchema.parse(formData)] reports, read off [contactSchema]
    check by check and named for the proofs. *)

Module Schema.
Import Js Contact.

Section Unfolded.
Context `{Zod.ZodLib}.

(** The issues of [contactSchema.parse(formData)]. *)
Definition issues (fd : FormData) : list Zod.ZodIssue :=
  Zod.ZodObject_issues contactSchema (get fd).

(** What [validateForm] returns. *)
Definition valid (fd : FormData) : bool :=
  match Zod.parse contactSchema (get fd) with
  | Zod.returns => true
  | Zod.throwsZodError _ => false
  end.

Definition name_issues (fd : FormData) : list Zod.ZodIssue :=
  (if (length (trim (name fd)) <? 1)%nat
   then [Zod.addIssue [lit "name"] (Zod.too_small 1)] else [])
  ++ (if (100 <? length (trim (name fd)))%nat
      then [Zod.addIssue [lit "name"] (Zod.too_big 100)] else []).

Definition email_issues (fd : FormData) : list Zod.ZodIssue :=
  (if Zod.emailRegex_test (trim (email fd)) then []
   else [Zod.addIssue [lit "email"] Zod.invalid_string_email])
  ++ (if (255 <? length (trim (email fd)))%nat
      then [Zod.addIssue [lit "email"] (Zod.too_big 255)] else []).

Definition location_issues (fd : FormData) : list Zod.ZodIssue :=
  if (200 <? length (trim (location fd)))%nat
  then [Zod.addIssue [lit "location"] (Zod.too_big 200)] else [].

Definition message_issues (fd : FormData) : list Zod.ZodIssue :=
  (if (length (trim (message fd)) <? 1)%nat
   then [Zod.addIssue [lit "message"] (Zod.too_small 1)] else [])
  ++ (if (2000 <? length (trim (message fd)))%nat
      then [Zod.addIssue [lit "message"] (Zod.too_big 2000)] else []).

End Unfolded.
End Schema.

(** ** The statements of the specification, in its words *)

Module Spec.
Import Js Contact Schema.

Section Words.
Context `{Zod.ZodLib}.

(** The name is empty after trimming or longer than 100 characters. *)
Definition name_fails (fd : FormData) : bool :=
  (length (trim (name fd)) =? 0)%nat || (100 <? length (trim (name fd)))%nat.

(** The email is not a valid email address or longer than 255 characters. *)
Definition email_fails (fd : FormData) : bool :=
  negb (Zod.emailRegex_test (trim (email fd)))
  || (255 <? length (trim (email fd)))%nat.

(** The message is empty after trimming or longer than 2000 characters. *)
Definition message_fails (fd : FormData) : bool :=
  (length (trim (message fd)) =? 0)%nat
  || (2000 <? length (trim (message fd)))%nat.

(** The location is longer than 200 characters after trimming. *)
Definition location_fails (fd : FormData) : bool :=
  (200 <? length (trim (location fd)))%nat.

(** The form data fails the fixed schema check. *)
Definition schema_check_fails (fd : FormData) : bool :=
  name_fails fd || email_fails fd || message_fails fd || location_fails fd.

End Words.

(** A property left out of the payload when [test] is the empty string. *)
Definition omitted_when_empty (test value : jsstring) : option jsstring :=
  match test with
  | [] => None
  | _ :: _ => Some value
  end.


(** The same, with location left out when its trimmed value is the empty
    string. *)
Definition payload_amended (fd : FormData) : jsobject :=
  [ (lit "name", Some (trim (name fd)));
    (lit "email", Some (trim (email fd)));
    (lit "eventDate", omitted_when_empty (eventDate fd) (eventDate fd));
    (lit "eventType", omitted_when_empty (eventType fd) (eventType fd));
    (lit "location",
      omitted_when_empty (trim (location fd)) (trim (location fd)));
    (lit "message", Some (trim (message fd)));
    (lit "_gotcha", Some (_gotcha fd)) ].

(** The request completed with a non-success status, or failed. *)
Definition request_failed (outcome : FetchOutcome) : bool :=
  match outcome with
  | fulfilled response => negb (ok response)
  | rejected _ => true
  end.

(** The message shown to the user for a failed request. *)
Definition failure_message (outcome : FetchOutcome) : jsstring :=
  match outcome with
  | fulfilled response =>
      lit "Request failed (" ++ NumberToString (status response) ++ lit ")"
  | rejected (ErrorObject m) => m
  | rejected OtherValue => lit "Submission failed."
  end.

(** The confirmation notice. *)
Definition confirmation_notice : Toast :=
  {| title := lit "Request Received";
     description :=
       lit "Thank you for your inquiry. We'll be in touch within 24 hours.";
     variant := None |}.

(** The destructive toast that carries an error message. *)
Definition failure_notice (m : jsstring) : Toast :=
  {| title := lit "Submission Failed"; description := m;
     variant := Some destructive |}.

(** No event of the list is a change event of the hidden input. *)
Definition leaves_honeypot (evs : list Event) : bool :=
  forallb
    (fun ev =>
       match ev with
       | EvChange n _ => negb (bool_decide (n = lit "_gotcha"))
       | _ => true
       end)
    evs.

(** The submit button is enabled and shows its resting label. *)
Definition button_ready (st : State) : Prop :=
  button_disabled st = false /\ button_label st = lit "Request Availability".

(** An effect that, when it is a request, carries a payload whose honeypot
    property is the empty string. *)
Definition sends_empty_honeypot (e : Effect) : Prop :=
  match e with
  | fetch _ init => exists fd, init = request fd /\ _gotcha fd = []
  | _ => True
  end.

End Spec.

(** ** Concrete forms for the closed examples *)

Module Examples.
Import Js Contact.

Definition ok_200 : FetchOutcome := fulfilled {| ok := true; status := 200 |}.
Definition error_500 : FetchOutcome := fulfilled {| ok := false; status := 500 |}.
Definition network_error : FetchOutcome :=
  rejected (ErrorObject (lit "Failed to fetch")).

Definition with_form (fd : FormData) : State :=
  {| formData := fd; isSubmitting := false; errors := ∅; submitError := None |}.

(** The state a failed request leaves behind, with the form edited since. *)
Definition after_failure (fd : FormData) : State :=
  {| formData := fd; isSubmitting := false; errors := ∅;
     submitError := Some (lit "Request failed (500)") |}.

(** A form filled in through the inputs of the page; it passes the schema
    check. *)
Definition plain_form : FormData :=
  {| name := lit "Ada"; email := lit "ada@example.com"; eventDate := [];
     eventType := []; location := []; message := lit "Hello";
     _gotcha := [] |}.

(** The change events that fill the form in as [plain_form]. *)
Definition plain_events : list Event :=
  [ EvChange (lit "name") (lit "Ada");
    EvChange (lit "email") (lit "ada@example.com");
    EvChange (lit "message") (lit "Hello") ].

(** A form with every property set, some with spaces around them. *)
Definition full_form : FormData :=
  {| name := lit " Ada "; email := lit "ada@example.com "; eventDate := [];
     eventType := lit "Gala"; location := lit " Boston ";
     message := lit "Hello"; _gotcha := [] |}.

(** A valid form with a location of one space. *)
Definition blank_location_form : FormData :=
  {| name := lit "Ada"; email := lit "ada@example.com"; eventDate := [];
     eventType := []; location := lit " "; message := lit "Hello";
     _gotcha := [] |}.

(** A form whose name is white space and whose email has no domain. *)
Definition bad_form : FormData :=
  {| name := lit "   "; email := lit "ada"; eventDate := []; eventType := [];
     location := []; message := lit "Hello"; _gotcha := [] |}.

(** A form whose hidden input was filled in. *)
Definition bot_form : FormData :=
  {| name := lit "Ada"; email := lit "ada@example.com"; eventDate := [];
     eventType := []; location := []; message := lit "Hello";
     _gotcha := lit "bot" |}.

(** The change events that fill the form in as [bot_form]. *)
Definition bot_events : list Event :=
  [ EvChange (lit "_gotcha") (lit "bot"); EvChange (lit "name") (lit "Ada");
    EvChange (lit "email") (lit "ada@example.com");
    EvChange (lit "message") (lit "Hello") ].

Definition home : ScrollToTop.Location :=
  {| ScrollToTop.pathname := lit "/"; ScrollToTop.search := [];
     ScrollToTop.hash := [] |}.

Definition contact_page : ScrollToTop.Location :=
  {| ScrollToTop.pathname := lit "/contact"; ScrollToTop.search := [];
     ScrollToTop.hash := [] |}.

Definition contact_anchor : ScrollToTop.Location :=
  {| ScrollToTop.pathname := lit "/contact"; ScrollToTop.search := [];
     ScrollToTop.hash := lit "#form" |}.

End Examples.

(** ** The page with its rendered inputs and submit events at any time

    The form renders four inputs, named _gotcha, name, email and message;
    the other three properties of the form object have no input.  The
    handler of the submit event does not read [isSubmitting], so a submit
    event dispatched while a request is under way runs it again; the
    session counts the requests under way. *)

Module Session.
Import Js Contact Spec.



(** The component state and the number of handlers that wait for their
    request. *)
Record Session : Type := mkSession {
  view : State;
  under_way : nat
}.

Definition initialSession : Session := {| view := initialState; under_way := 0 |}.


Section Dispatch.
Context `{Zod.ZodLib}.

(** One event.  A submit event always runs [handleSubmit] up to its await,
    whether or not a request is under way; a settle event resumes one of
    the waiting handlers, and means nothing when none waits. *)
Definition dispatch (ev : Event) (s : Session) : Session * list Effect :=
  match ev with
  | EvChange n v =>
      ({| view := change n v (view s); under_way := under_way s |}, [])
  | EvSubmit =>
      let '(sent, st', effects) :=
        handleSubmit_sync (formData (view s)) (view s) in
      ({| view := st';
          under_way := if (sent : bool) then S (under_way s) else under_way s |},
       effects)
  | EvSettle outcome =>
      match under_way s with
      | O => (s, [])
      | S n =>
          let '(_, st', effects) := handleSubmit_resume outcome (view s) in
          ({| view := st'; under_way := n |}, effects)
      end
  end.

Fixpoint dispatch_all (evs : list Event) (s : Session) : Session * list Effect :=
  match evs with
  | [] => (s, [])
  | ev :: rest =>
      let '(s1, e1) := dispatch ev s in
      let '(s2, e2) := dispatch_all rest s1 in
      (s2, e1 ++ e2)
  end.

End Dispatch.
End Session.

(** ** Notions for the further results *)

Module Derived.
Import Js Contact.

(** The seven property names of the form object. *)
Definition field_names : list jsstring :=
  [ lit "name"; lit "email"; lit "eventDate"; lit "eventType";
    lit "location"; lit "message"; lit "_gotcha" ].

(** Every event of the list is a change event. *)
Definition only_changes (evs : list Event) : bool :=
  forallb (fun ev => match ev with EvChange _ _ => true | _ => false end) evs.

(** The string neither starts nor ends with white space. *)
Definition unpadded (s : jsstring) : bool :=
  match s with [] => true | c :: _ => negb (is_white_space c) end
  && match rev s with [] => true | c :: _ => negb (is_white_space c) end.

(** The form with [pre] put before and [post] after each of the four
    properties the schema trims. *)
Definition pad_fields (pre post : jsstring) (fd : FormData) : FormData :=
  {| name := pre ++ name fd ++ post;
     email := pre ++ email fd ++ post;
     eventDate := eventDate fd;
     eventType := eventType fd;
     location := pre ++ location fd ++ post;
     message := pre ++ message fd ++ post;
     _gotcha := _gotcha fd |}.

(** The form with other values for the three properties the schema does
    not check. *)
Definition with_unchecked (d t g : jsstring) (fd : FormData) : FormData :=
  {| name := name fd; email := email fd; eventDate := d; eventType := t;
     location := location fd; message := message fd; _gotcha := g |}.

(** Two locations with the same pathname and the same hash. *)
Definition same_route (a b : ScrollToTop.Location) : bool :=
  bool_decide (ScrollToTop.pathname a = ScrollToTop.pathname b)
  && bool_decide (ScrollToTop.hash a = ScrollToTop.hash b).

(** How many of the steps from [prev] along [locs] change the pathname or
    the hash. *)
Fixpoint route_changes (prev : ScrollToTop.Location)
    (locs : list ScrollToTop.Location) : nat :=
  match locs with
  | [] => 0%nat
  | loc :: rest =>
      ((if same_route prev loc then 0 else 1) + route_changes loc rest)%nat
  end.

(** A form as long as the schema allows, and one over the limit for the
    email. *)
Definition long_invalid_email_form : FormData :=
  {| name := lit "Ada"; email := repeat 120 300; eventDate := [];
     eventType := []; location := []; message := lit "Hello"; _gotcha := [] |}.

Definition contact_query : ScrollToTop.Location :=
  {| ScrollToTop.pathname := lit "/contact"; ScrollToTop.search := lit "?sent=1";
     ScrollToTop.hash := [] |}.

End Derived.

(** ** Results on strings *)

Module JsFacts.
Import Js.

Lemma trimStart_all_white_space (s : jsstring) :
  forallb is_white_space s = true -> trimStart s = [].
Proof.
  induction s as [|c rest IH]; simpl; [reflexivity|].
  intros Hall. apply andb_prop in Hall as [Hc Hrest].
  rewrite Hc. exact (IH Hrest).
Qed.

Lemma trimStart_nil_all_white_space (s : jsstring) :
  trimStart s = [] -> forallb is_white_space s = true.
Proof.
  induction s as [|c rest IH]; simpl; [reflexivity|].
  destruct (is_white_space c); simpl; [exact IH | discriminate].
Qed.

Lemma forallb_reverse (f : N -> bool) (s : jsstring) :
  forallb f (rev s) = forallb f s.
Proof.
  induction s as [|c rest IH]; simpl; [reflexivity|].
  rewrite forallb_app, IH. simpl. rewrite andb_true_r. apply andb_comm.
Qed.

(** A string of white space only trims to the empty string. *)
Lemma trim_all_white_space (s : jsstring) :
  forallb is_white_space s = true -> trim s = [].
Proof.
  intros Hall. unfold trim, trimEnd.
  rewrite (trimStart_all_white_space s Hall). reflexivity.
Qed.

(** And only such a string does. *)
Lemma trim_nil_all_white_space (s : jsstring) :
  trim s = [] -> forallb is_white_space s = true.
Proof.
  unfold trim, trimEnd. intros Hnil.
  apply (f_equal (@rev N)) in Hnil. rewrite rev_involutive in Hnil.
  simpl in Hnil. apply trimStart_nil_all_white_space in Hnil.
  rewrite forallb_reverse in Hnil.
  remember (trimStart s) as t eqn:Et.
  clear - Hnil Et. revert t Hnil Et.
  induction s as [|c rest IH]; intros t Hnil Et; simpl in *; [reflexivity|].
  destruct (is_white_space c) eqn:Hc; simpl.
  - exact (IH t Hnil Et).
  - subst t. simpl in Hnil. rewrite Hc in Hnil. discriminate.
Qed.

End JsFacts.

(** ** Results on the contact form *)

Module ContactFacts.
Import Js Contact Schema Spec JsFacts.

Section Validation.
Context `{Zod.ZodLib}.

(** The issues, field by field, in the order of the shape. *)
Lemma issues_by_field (fd : FormData) :
  issues fd
  = name_issues fd ++ email_issues fd ++ location_issues fd ++ message_issues fd.
Proof.
  unfold issues, Zod.ZodObject_issues, contactSchema.
  cbn [flat_map fst snd Zod.ZodType_parse].
  change (get fd (lit "name")) with (Some (name fd)).
  change (get fd (lit "email")) with (Some (email fd)).
  change (get fd (lit "eventDate")) with (Some (eventDate fd)).
  change (get fd (lit "eventType")) with (Some (eventType fd)).
  change (get fd (lit "location")) with (Some (location fd)).
  change (get fd (lit "message")) with (Some (message fd)).
  change (get fd (lit "_gotcha")) with (Some (_gotcha fd)).
  cbn [Zod.ZodString_checks Zod.ZodType_parse].
  unfold name_issues, email_issues, location_issues, message_issues.
  rewrite !app_nil_r. rewrite <- !app_assoc. reflexivity.
Qed.

Lemma ltb_one (n : nat) : (n <? 1)%nat = (n =? 0)%nat.
Proof. destruct n as [|n]; reflexivity. Qed.

(** The schema check of the source fails exactly on the forms the
    specification describes. *)
Lemma valid_schema_check (fd : FormData) :
  valid fd = negb (schema_check_fails fd).
Proof.
  unfold valid, Zod.parse. fold (issues fd). rewrite issues_by_field.
  unfold name_issues, email_issues, location_issues, message_issues,
    schema_check_fails, name_fails, email_fails, message_fails, location_fails.
  rewrite !ltb_one.
  generalize (length (trim (name fd)) =? 0)%nat,
             (100 <? length (trim (name fd)))%nat,
             (Zod.emailRegex_test (trim (email fd))),
             (255 <? length (trim (email fd)))%nat,
             (200 <? length (trim (location fd)))%nat,
             (length (trim (message fd)) =? 0)%nat,
             (2000 <? length (trim (message fd)))%nat.
  intros [] [] [] [] [] [] []; reflexivity.
Qed.

Lemma valid_false_issues (fd : FormData) :
  valid fd = false -> Zod.parse contactSchema (get fd) = Zod.throwsZodError (issues fd).
Proof.
  unfold valid, Zod.parse. fold (issues fd).
  destruct (issues fd); [discriminate | reflexivity].
Qed.

Lemma valid_true_returns (fd : FormData) :
  valid fd = true -> Zod.parse contactSchema (get fd) = Zod.returns.
Proof.
  unfold valid. destruct (Zod.parse contactSchema (get fd)); [reflexivity | discriminate].
Qed.

(** *** The recorded messages *)

(** The message [validateForm] stores under the key of each field: that of
    the last issue the schema reports for the field, none when it reports
    none. *)
Lemma newErrors_by_field (fd : FormData) :
  newErrors (issues fd) !! lit "name"
  = (if (100 <? length (trim (name fd)))%nat
     then Some (Zod.errorMap (Zod.too_big 100))
     else if (length (trim (name fd)) <? 1)%nat
          then Some (Zod.errorMap (Zod.too_small 1))
          else None)
  /\ newErrors (issues fd) !! lit "email"
     = (if (255 <? length (trim (email fd)))%nat
        then Some (Zod.errorMap (Zod.too_big 255))
        else if Zod.emailRegex_test (trim (email fd))
             then None
             else Some (Zod.errorMap Zod.invalid_string_email))
  /\ newErrors (issues fd) !! lit "message"
     = (if (2000 <? length (trim (message fd)))%nat
        then Some (Zod.errorMap (Zod.too_big 2000))
        else if (length (trim (message fd)) <? 1)%nat
             then Some (Zod.errorMap (Zod.too_small 1))
             else None)
  /\ newErrors (issues fd) !! lit "location"
     = (if (200 <? length (trim (location fd)))%nat
        then Some (Zod.errorMap (Zod.too_big 200))
        else None).
Proof.
  rewrite (issues_by_field fd).
  unfold name_issues, email_issues, location_issues, message_issues.
  generalize (length (trim (name fd)) <? 1)%nat,
             (100 <? length (trim (name fd)))%nat,
             (Zod.emailRegex_test (trim (email fd))),
             (255 <? length (trim (email fd)))%nat,
             (200 <? length (trim (location fd)))%nat,
             (length (trim (message fd)) <? 1)%nat,
             (2000 <? length (trim (message fd)))%nat.
  intros [] [] [] [] [] [] []; vm_compute; repeat split.
Qed.

(** *** The handlers, step by step *)

Lemma validateForm_eq (fd : FormData) (st : State) :
  validateForm fd st
  = (valid fd,
     {| formData := formData st; isSubmitting := isSubmitting st;
        errors := if valid fd then ∅ else newErrors (issues fd);
        submitError := submitError st |},
     []).
Proof.
  unfold validateForm. destruct (valid fd) eqn:Hv.
  - rewrite (valid_true_returns fd Hv). reflexivity.
  - rewrite (valid_false_issues fd Hv). reflexivity.
Qed.

Lemma handleSubmit_sync_eq (fd : FormData) (st : State) :
  handleSubmit_sync fd st
  = (valid fd,
     {| formData := formData st;
        isSubmitting := if valid fd then true else isSubmitting st;
        errors := if valid fd then ∅ else newErrors (issues fd);
        submitError := None |},
     preventDefault
       :: (if valid fd then [fetch WORKER_ENDPOINT (request fd)] else [])).
Proof.
  unfold handleSubmit_sync, bind at 1 2 3.
  cbn [emit setSubmitError]. rewrite validateForm_eq.
  destruct (valid fd); reflexivity.
Qed.

Lemma handleSubmit_resume_eq (outcome : FetchOutcome) (s : State) :
  handleSubmit_resume outcome s
  = (tt,
     {| formData := if request_failed outcome then formData s else emptyForm;
        isSubmitting := false;
        errors := errors s;
        submitError :=
          if request_failed outcome then Some (failure_message outcome)
          else submitError s |},
     [toast (if request_failed outcome
             then failure_notice (failure_message outcome)
             else confirmation_notice)]).
Proof.
  destruct outcome as [[[|] code]|[m|]]; reflexivity.
Qed.

Lemma submit_eq (outcome : FetchOutcome) (st : State) :
  submit outcome st
  = if valid (formData st) then
      ({| formData :=
            if request_failed outcome then formData st else emptyForm;
          isSubmitting := false;
          errors := ∅;
          submitError :=
            if request_failed outcome then Some (failure_message outcome)
            else None |},
       [preventDefault; fetch WORKER_ENDPOINT (request (formData st));
        toast (if request_failed outcome
               then failure_notice (failure_message outcome)
               else confirmation_notice)])
    else
      ({| formData := formData st; isSubmitting := isSubmitting st;
          errors := newErrors (issues (formData st)); submitError := None |},
       [preventDefault]).
Proof.
  unfold submit, handleSubmit, bind. rewrite handleSubmit_sync_eq.
  destruct (valid (formData st)).
  - rewrite handleSubmit_resume_eq. reflexivity.
  - reflexivity.
Qed.

(** *** Validation failure *)

(** C1.  When the form data fails the schema check of validateForm, one
    of the stated conditions holds (name empty after trimming or longer
    than 100 characters, email not a valid address or longer than 255,
    message empty after trimming or longer than 2000, location longer than
    200 after trimming; the schema trims name, email, message and location
    before it checks them), the invocation of handleSubmit makes no
    request, leaves the form data as it was, and records a message under
    the key of each failing field and of no other of these fields. *)
Theorem invalid_form_is_not_submitted (outcome : FetchOutcome) (st : State) :
  valid (formData st) = false ->
  schema_check_fails (formData st) = true
  /\ requests (snd (submit outcome st)) = []
  /\ formData (fst (submit outcome st)) = formData st
  /\ (name_fails (formData st) = true
      <-> is_Some (errors (fst (submit outcome st)) !! lit "name"))
  /\ (email_fails (formData st) = true
      <-> is_Some (errors (fst (submit outcome st)) !! lit "email"))
  /\ (message_fails (formData st) = true
      <-> is_Some (errors (fst (submit outcome st)) !! lit "message"))
  /\ (location_fails (formData st) = true
      <-> is_Some (errors (fst (submit outcome st)) !! lit "location")).
Proof.
  intros Hinvalid.
  assert (Hfails : schema_check_fails (formData st) = true).
  { rewrite valid_schema_check in Hinvalid.
    apply negb_false_iff in Hinvalid. exact Hinvalid. }
  split; [exact Hfails|].
  rewrite submit_eq, Hinvalid.
  cbn [fst snd errors formData requests omap].
  split; [reflexivity|]. split; [reflexivity|].
  destruct (newErrors_by_field (formData st)) as (-> & -> & -> & ->).
  unfold name_fails, email_fails, message_fails, location_fails.
  rewrite !ltb_one.
  repeat split;
    repeat match goal with
           | |- context [if ?b then _ else _] => destruct b
           end;
    cbn; intros Hx; rewrite ?orb_true_r; try reflexivity; try discriminate;
    try (eexists; reflexivity);
    try (destruct Hx as [y Hy]; discriminate).
Qed.

(** C9.  A name or a message made of white space only trims to the empty
    string, so the minimum-length check of the schema reports it, the
    validation fails, and the invocation makes no request. *)
Theorem blank_name_or_message_is_not_submitted
    (outcome : FetchOutcome) (st : State) :
  forallb is_white_space (name (formData st)) = true
  \/ forallb is_white_space (message (formData st)) = true ->
  valid (formData st) = false
  /\ (exists key,
        (key = lit "name" \/ key = lit "message")
        /\ In (Zod.addIssue [key] (Zod.too_small 1)) (issues (formData st)))
  /\ requests (snd (submit outcome st)) = []
  /\ value_of (handleSubmit_sync (formData st) st) = false.
Proof.
  intros Hblank.
  assert (Hinvalid : valid (formData st) = false).
  { rewrite valid_schema_check. unfold schema_check_fails, name_fails, message_fails.
    destruct Hblank as [Hn|Hm].
    - rewrite (trim_all_white_space _ Hn). reflexivity.
    - rewrite (trim_all_white_space _ Hm). cbn. rewrite !orb_true_r. reflexivity. }
  split; [exact Hinvalid|]. split.
  - rewrite issues_by_field. unfold name_issues, message_issues.
    destruct Hblank as [Hn|Hm].
    + exists (lit "name"). split; [left; reflexivity|].
      rewrite (trim_all_white_space _ Hn). apply in_or_app. left. left. reflexivity.
    + exists (lit "message"). split; [right; reflexivity|].
      rewrite (trim_all_white_space _ Hm).
      apply in_or_app. right. apply in_or_app. right. apply in_or_app. right.
      left. reflexivity.
  - rewrite submit_eq, handleSubmit_sync_eq, Hinvalid. split; reflexivity.
Qed.

(** *** The request *)

(** In whatever state the form is, also one that no input of the page
    produces, an invocation of handleSubmit in which validation succeeds
    sends exactly one request, a POST to the fixed URL, whose body is the
    JSON serialization of the form data with name, email, message and
    location trimmed, with eventDate and eventType left out when their
    form value is the empty string and location left out when its trimmed
    value is the empty string: a location of white space only is left
    out. *)
Theorem valid_form_is_posted_once (outcome : FetchOutcome) (st : State) :
  valid (formData st) = true ->
  requests (snd (submit outcome st))
  = [ (lit "https://contact-form.digbadara-finance.workers.dev",
       {| method := lit "POST";
          headers := [(lit "Content-Type", lit "application/json")];
          body := JSON_stringify (payload_amended (formData st)) |}) ].
Proof.
  intros Hvalid. rewrite submit_eq, Hvalid.
  cbn [snd requests omap]. unfold request, WORKER_ENDPOINT.
  replace (payload (formData st)) with (payload_amended (formData st)); [reflexivity|].
  unfold payload, payload_amended, or_undefined, omitted_when_empty, truthy.
  destruct (eventDate (formData st)), (eventType (formData st)),
    (trim (location (formData st))); reflexivity.
Qed.

(** C6.  An invocation of handleSubmit issues at most one request, whatever
    the outcome of the request: the part of the handler that runs once the
    request has settled issues none. *)
Theorem at_most_one_request (outcome : FetchOutcome) (st s : State) :
  (length (requests (snd (submit outcome st))) <= 1)%nat
  /\ requests (effects_of (handleSubmit_resume outcome s)) = []
  /\ length (requests (snd (submit outcome st)))
     = (if valid (formData st) then 1%nat else 0%nat).
Proof.
  rewrite submit_eq, handleSubmit_resume_eq.
  destruct (valid (formData st)); cbn; repeat split; lia.
Qed.

(** *** The outcome of the request *)

(** C3.  When the request of a submission completes with a non-success
    status or fails, handleSubmit sets submitError to an error message (the
    status in words, the message of the error, or a fixed text), shows a
    destructive toast with that message, and leaves the form data as it is,
    also when the form was edited while the request was under way. *)
Theorem failed_request_is_reported (outcome : FetchOutcome) (st : State) :
  valid (formData st) = true ->
  request_failed outcome = true ->
  submitError (fst (submit outcome st)) = Some (failure_message outcome)
  /\ toasts (snd (submit outcome st))
     = [ {| title := lit "Submission Failed";
            description := failure_message outcome;
            variant := Some destructive |} ]
  /\ formData (fst (submit outcome st)) = formData st
  /\ (forall s : State,
        formData (state_of (handleSubmit_resume outcome s)) = formData s
        /\ submitError (state_of (handleSubmit_resume outcome s))
           = Some (failure_message outcome)).
Proof.
  intros Hvalid Hfailed. rewrite submit_eq, Hvalid, Hfailed.
  repeat split; try reflexivity;
    rewrite handleSubmit_resume_eq, Hfailed; reflexivity.
Qed.

(** C4.  When the request of a submission completes with a success status,
    handleSubmit shows the confirmation notice and sets every field of the
    form (name, email, eventDate, eventType, location, message, _gotcha)
    to the empty string. *)
Theorem successful_request_resets_form (response : Response) (st : State) :
  valid (formData st) = true ->
  ok response = true ->
  toasts (snd (submit (fulfilled response) st))
  = [ {| title := lit "Request Received";
         description :=
           lit "Thank you for your inquiry. We'll be in touch within 24 hours.";
         variant := None |} ]
  /\ formData (fst (submit (fulfilled response) st))
     = {| name := []; email := []; eventDate := []; eventType := [];
          location := []; message := []; _gotcha := [] |}
  /\ (forall s : State,
        formData (state_of (handleSubmit_resume (fulfilled response) s))
        = emptyForm).
Proof.
  intros Hvalid Hok. rewrite submit_eq, Hvalid. cbn [request_failed]. rewrite Hok.
  repeat split; try reflexivity.
  intros s. rewrite handleSubmit_resume_eq. cbn [request_failed]. rewrite Hok.
  reflexivity.
Qed.



(** *** The loading flag *)

Lemma step_awaiting (ev : Event) (p p' : Page) (effects : list Effect) :
  step ev p = Some (p', effects) ->
  isSubmitting (store p) = awaiting p ->
  isSubmitting (store p') = awaiting p'.
Proof.
  destruct ev as [n v| |outcome]; cbn [step].
  - intros Hstep Hinv. injection Hstep as <- _. exact Hinv.
  - unfold button_disabled. destruct (isSubmitting (store p)) eqn:Hflag; [discriminate|].
    rewrite handleSubmit_sync_eq, Hflag. intros Hstep _. injection Hstep as <- _.
    cbn. destruct (valid (formData (store p))); reflexivity.
  - destruct (awaiting p); [|discriminate].
    rewrite handleSubmit_resume_eq. intros Hstep _. injection Hstep as <- _.
    reflexivity.
Qed.

(** On every page reached from the initial one the flag is set exactly
    while a request is under way. *)
Lemma run_awaiting (evs : list Event) :
  forall (p p' : Page) (effects : list Effect),
    run evs p = Some (p', effects) ->
    isSubmitting (store p) = awaiting p ->
    isSubmitting (store p') = awaiting p'.
Proof.
  induction evs as [|ev rest IH]; intros p p' effects; cbn [run].
  - intros Hrun Hinv. injection Hrun as <- _. exact Hinv.
  - destruct (step ev p) as [[p1 e1]|] eqn:Hstep; [|discriminate].
    destruct (run rest p1) as [[p2 e2]|] eqn:Hrest; [|discriminate].
    intros Hrun Hinv. injection Hrun as <- _.
    exact (IH p1 p2 e2 Hrest (step_awaiting ev p p1 e1 Hstep Hinv)).
Qed.

(** C7.  handleSubmit sets isSubmitting to true only once validation has
    succeeded, and sets it to false when the handler completes after the
    request, on the success and on the error path alike, in whichever state
    the request settles; so after a completed submission attempt the submit
    button is enabled and shows its resting label instead of Sending...,
    and on every page reached from the initial one the flag is set exactly
    while a request is under way. *)
Theorem isSubmitting_only_while_request_pending
    (outcome : FetchOutcome) (st : State) :
  isSubmitting (state_of (handleSubmit_sync (formData st) st))
  = (if valid (formData st) then true else isSubmitting st)
  /\ (valid (formData st) = true ->
      isSubmitting (fst (submit outcome st)) = false
      /\ button_ready (fst (submit outcome st)))
  /\ (forall s : State,
        isSubmitting (state_of (handleSubmit_resume outcome s)) = false
        /\ button_ready (state_of (handleSubmit_resume outcome s)))
  /\ (isSubmitting st = false ->
      isSubmitting (fst (submit outcome st)) = false
      /\ button_ready (fst (submit outcome st)))
  /\ (forall (evs : list Event) (p : Page) (effects : list Effect),
        run evs initialPage = Some (p, effects) ->
        isSubmitting (store p) = awaiting p).
Proof.
  rewrite submit_eq, handleSubmit_sync_eq. split; [reflexivity|].
  split; [intros Hvalid; rewrite Hvalid; repeat split|].
  split; [intros s; rewrite handleSubmit_resume_eq; repeat split|].
  split.
  - intros Hidle. destruct (valid (formData st)); [repeat split|].
    cbn [fst isSubmitting]. unfold button_ready, button_disabled, button_label.
    cbn [isSubmitting]. rewrite Hidle. repeat split.
  - intros evs p effects Hrun. exact (run_awaiting evs initialPage p effects Hrun eq_refl).
Qed.

(** *** The honeypot *)

Lemma join_includes (sep part : jsstring) (parts : list jsstring) :
  In part parts ->
  exists before after, join sep parts = before ++ part ++ after.
Proof.
  induction parts as [|p ps IH]; [intros []|].
  intros [->|Hin].
  - destruct ps as [|q qs].
    + exists [], []. cbn. rewrite app_nil_r. reflexivity.
    + exists [], (sep ++ join sep (q :: qs)). reflexivity.
  - destruct (IH Hin) as (b & a & Hjoin).
    destruct ps as [|q qs]; [destruct Hin|].
    exists (p ++ sep ++ b), a.
    change (join sep (p :: q :: qs)) with (p ++ sep ++ join sep (q :: qs)).
    rewrite Hjoin. rewrite <- !app_assoc. reflexivity.
Qed.

(** A property that is not undefined appears in the text, quoted key, colon
    and quoted value. *)
Lemma JSON_stringify_includes (o : jsobject) (k v : jsstring) :
  In (k, Some v) o ->
  exists before after,
    JSON_stringify o
    = before ++ QuoteJSONString k ++ [58] ++ QuoteJSONString v ++ after.
Proof.
  intros Hin.
  assert (Hpart : In (QuoteJSONString k ++ [58] ++ QuoteJSONString v)
                     (omap SerializeJSONProperty o)).
  { apply list_elem_of_In, list_elem_of_omap. exists (k, Some v).
    split; [apply list_elem_of_In; exact Hin | reflexivity]. }
  destruct (join_includes [44] _ _ Hpart) as (b & a & Hjoin).
  exists ([123] ++ b), (a ++ [125]). unfold JSON_stringify.
  rewrite Hjoin. rewrite <- !app_assoc. reflexivity.
Qed.

Lemma handleChange_keeps_honeypot (n v : jsstring) (prev : FormData) :
  n <> lit "_gotcha" -> _gotcha (handleChange n v prev) = _gotcha prev.
Proof.
  intros Hn. unfold handleChange.
  repeat case_bool_decide; try reflexivity. contradiction.
Qed.

Lemma step_honeypot (ev : Event) (p p' : Page) (effects : list Effect) :
  step ev p = Some (p', effects) ->
  leaves_honeypot [ev] = true ->
  _gotcha (formData (store p)) = [] ->
  _gotcha (formData (store p')) = [] /\ Forall sends_empty_honeypot effects.
Proof.
  destruct ev as [n v| |outcome]; cbn [step leaves_honeypot forallb].
  - intros Hstep Hleaves Hempty. injection Hstep as <- <-.
    split; [|constructor]. cbn [store change formData].
    rewrite handleChange_keeps_honeypot; [exact Hempty|].
    rewrite andb_true_r in Hleaves. apply negb_true_iff in Hleaves.
    apply bool_decide_eq_false in Hleaves. exact Hleaves.
  - destruct (button_disabled (store p)); [discriminate|].
    rewrite handleSubmit_sync_eq. intros Hstep _ Hempty. injection Hstep as <- <-.
    split; [exact Hempty|]. constructor; [exact I|].
    destruct (valid (formData (store p))); constructor; [|constructor].
    exists (formData (store p)). split; [reflexivity | exact Hempty].
  - destruct (awaiting p); [|discriminate].
    rewrite handleSubmit_resume_eq. intros Hstep _ Hempty. injection Hstep as <- <-.
    split; [|constructor; [exact I | constructor]].
    cbn [store formData]. destruct (request_failed outcome); [exact Hempty | reflexivity].
Qed.

(** As long as no change event reaches the hidden input, its value stays
    empty and so does the honeypot property of every payload sent. *)
Lemma run_honeypot (evs : list Event) :
  forall (p p' : Page) (effects : list Effect),
    run evs p = Some (p', effects) ->
    leaves_honeypot evs = true ->
    _gotcha (formData (store p)) = [] ->
    _gotcha (formData (store p')) = [] /\ Forall sends_empty_honeypot effects.
Proof.
  induction evs as [|ev rest IH]; intros p p' effects; cbn [run].
  - intros Hrun _ Hempty. injection Hrun as <- <-. split; [exact Hempty | constructor].
  - destruct (step ev p) as [[p1 e1]|] eqn:Hstep; [|discriminate].
    destruct (run rest p1) as [[p2 e2]|] eqn:Hrest; [|discriminate].
    intros Hrun Hleaves Hempty. injection Hrun as <- <-.
    cbn [leaves_honeypot forallb] in Hleaves.
    apply andb_prop in Hleaves as [Hev Hrest_leaves].
    destruct (step_honeypot ev p p1 e1 Hstep) as [Hempty1 Hsent1];
      [cbn [leaves_honeypot forallb]; rewrite Hev; reflexivity | exact Hempty |].
    destruct (IH p1 p2 e2 Hrest Hrest_leaves Hempty1) as [Hempty2 Hsent2].
    split; [exact Hempty2|]. apply Forall_app. split; assumption.
Qed.

(** C5, amended.  The payload of every submission that reaches the request
    includes the honeypot property _gotcha, and its value is the value the
    form holds for the hidden input: the empty string as long as no change
    event has reached that input since the page was opened. *)
Theorem honeypot_is_sent_as_held (outcome : FetchOutcome) (st : State) :
  valid (formData st) = true ->
  (exists init,
      requests (snd (submit outcome st)) = [(WORKER_ENDPOINT, init)]
      /\ body init = JSON_stringify (payload (formData st))
      /\ In (lit "_gotcha", Some (honeypot_value st)) (payload (formData st))
      /\ exists before after,
           body init
           = before ++ QuoteJSONString (lit "_gotcha") ++ [58]
               ++ QuoteJSONString (honeypot_value st) ++ after)
  /\ (forall (evs : list Event) (p : Page) (effects : list Effect),
        leaves_honeypot evs = true ->
        run evs initialPage = Some (p, effects) ->
        honeypot_value (store p) = []
        /\ Forall sends_empty_honeypot effects).
Proof.
  intros Hvalid. split.
  - exists (request (formData st)). rewrite submit_eq, Hvalid.
    assert (Hin : In (lit "_gotcha", Some (honeypot_value st)) (payload (formData st))).
    { unfold payload, honeypot_value. do 6 right. left. reflexivity. }
    repeat split; try reflexivity; try exact Hin.
    exact (JSON_stringify_includes _ _ _ Hin).
  - intros evs p effects Hleaves Hrun.
    exact (run_honeypot evs initialPage p effects Hrun Hleaves eq_refl).
Qed.

End Validation.
End ContactFacts.

(** ** Results on the scroll-to-top component *)

Module ScrollToTopFacts.
Import Js ScrollToTop.

(** After a render the hook remembers the pathname and the hash of the
    location of that render. *)
Lemma ScrollToTop_cell (loc : Location) (cell : HookCell) :
  snd (ScrollToTop loc cell) = Some [pathname loc; hash loc].
Proof.
  unfold ScrollToTop, useEffect. destruct cell as [prev|]; [|reflexivity].
  destruct (areHookInputsEqual [pathname loc; hash loc] prev); reflexivity.
Qed.

Lemma ScrollToTop_changed (before after : Location) :
  pathname after <> pathname before \/ hash after <> hash before ->
  fst (ScrollToTop after (Some [pathname before; hash before]))
  = [scrollTo {| top := 0; left := 0; behavior := smooth |}].
Proof.
  intros Hchanged. unfold ScrollToTop, useEffect, areHookInputsEqual.
  case_bool_decide as Heq; [|reflexivity].
  injection Heq as Hp Hh. destruct Hchanged as [Hne|Hne]; contradiction.
Qed.

(** The effects of a render that is not the first depend on the location
    of the render before it only. *)
Lemma renders_lookup_next (locs : list Location) :
  forall (cell : HookCell) (i : nat) (before after : Location),
    locs !! i = Some before ->
    locs !! S i = Some after ->
    renders locs cell !! S i
    = Some (fst (ScrollToTop after (Some [pathname before; hash before]))).
Proof.
  induction locs as [|loc rest IH]; intros cell i before after; [discriminate|].
  cbn [renders].
  destruct (ScrollToTop loc cell) as [effects cell'] eqn:Hrender.
  assert (Hcell : cell' = Some [pathname loc; hash loc]).
  { rewrite <- (ScrollToTop_cell loc cell), Hrender. reflexivity. }
  subst cell'.
  destruct i as [|j]; cbn [lookup list_lookup].
  - intros Hbefore Hafter. injection Hbefore as <-.
    destruct rest as [|next rest']; [discriminate|].
    cbn in Hafter. injection Hafter as <-.
    cbn [renders].
    destruct (ScrollToTop next (Some [pathname loc; hash loc])) as [e c].
    reflexivity.
  - intros Hbefore Hafter. exact (IH _ j before after Hbefore Hafter).
Qed.

(** C8.  Along the locations a mounted ScrollToTop is rendered at, every
    navigation from one location to the next that changes the pathname or
    the hash makes the render at the new location call window.scrollTo with
    top 0 and left 0. *)
Theorem navigation_scrolls_to_top
    (locs : list Location) (cell : HookCell) (i : nat) (before after : Location) :
  locs !! i = Some before ->
  locs !! S i = Some after ->
  pathname after <> pathname before \/ hash after <> hash before ->
  renders locs cell !! S i
  = Some [scrollTo {| top := 0; left := 0; behavior := smooth |}].
Proof.
  intros Hbefore Hafter Hchanged.
  rewrite (renders_lookup_next locs cell i before after Hbefore Hafter).
  rewrite (ScrollToTop_changed before after Hchanged). reflexivity.
Qed.

End ScrollToTopFacts.

(** ** Closed examples, computed with the zod 3.23 instance *)

Module Closed.
Import Js Contact Schema Spec Examples ContactFacts.

(** A form with a blank name and an email without a domain is not sent, and
    its name gets a message. *)
Lemma invalid_form_is_not_submitted_witness :
  @valid Zod3.zod3 bad_form = false
  /\ requests (snd (@submit Zod3.zod3 ok_200 (with_form bad_form))) = []
  /\ is_Some (errors (fst (@submit Zod3.zod3 ok_200 (with_form bad_form)))
                !! lit "name").
Proof.
  pose proof (@invalid_form_is_not_submitted Zod3.zod3 ok_200 (with_form bad_form))
    as Hthm.
  split; [vm_compute; reflexivity|].
  destruct Hthm as (_ & Hnone & _ & Hname & _); [vm_compute; reflexivity|].
  split; [exact Hnone|]. apply Hname. vm_compute; reflexivity.
Defined.

(** A name of three spaces is white space only and is not sent. *)
Lemma blank_name_or_message_is_not_submitted_witness :
  forallb is_white_space (name bad_form) = true
  /\ requests (snd (@submit Zod3.zod3 ok_200 (with_form bad_form))) = [].
Proof.
  split; [vm_compute; reflexivity|].
  apply (@blank_name_or_message_is_not_submitted Zod3.zod3 ok_200 (with_form bad_form)).
  left. vm_compute; reflexivity.
Defined.

(** A form with every property set is posted once, trimmed, with the empty
    eventDate left out, also when the request then fails; and a location of
    one space is left out. *)
Lemma valid_form_is_posted_once_witness :
  @valid Zod3.zod3 full_form = true
  /\ requests (snd (@submit Zod3.zod3 error_500 (with_form full_form)))
     = [ (WORKER_ENDPOINT,
          {| method := lit "POST";
             headers := [(lit "Content-Type", lit "application/json")];
             body := JSON_stringify
                       [ (lit "name", Some (lit "Ada"));
                         (lit "email", Some (lit "ada@example.com"));
                         (lit "eventType", Some (lit "Gala"));
                         (lit "location", Some (lit "Boston"));
                         (lit "message", Some (lit "Hello"));
                         (lit "_gotcha", Some []) ] |}) ]
  /\ requests (snd (@submit Zod3.zod3 ok_200 (with_form blank_location_form)))
     = [ (WORKER_ENDPOINT,
          {| method := lit "POST";
             headers := [(lit "Content-Type", lit "application/json")];
             body := JSON_stringify
                       [ (lit "name", Some (lit "Ada"));
                         (lit "email", Some (lit "ada@example.com"));
                         (lit "message", Some (lit "Hello"));
                         (lit "_gotcha", Some []) ] |}) ].
Proof.
  split; [vm_compute; reflexivity|]. split.
  - rewrite (@valid_form_is_posted_once Zod3.zod3 error_500 (with_form full_form));
      vm_compute; reflexivity.
  - rewrite (@valid_form_is_posted_once Zod3.zod3 ok_200
               (with_form blank_location_form));
      vm_compute; reflexivity.
Defined.

(** A response with status 500 and a network error both set submitError
    and keep the form. *)
Lemma failed_request_is_reported_witness :
  submitError (fst (@submit Zod3.zod3 error_500 (with_form plain_form)))
  = Some (lit "Request failed (500)")
  /\ formData (fst (@submit Zod3.zod3 error_500 (with_form plain_form)))
     = plain_form
  /\ submitError (fst (@submit Zod3.zod3 network_error (with_form plain_form)))
     = Some (lit "Failed to fetch").
Proof.
  destruct (@failed_request_is_reported Zod3.zod3 error_500 (with_form plain_form))
    as (Herror & _ & Hform & _); try (vm_compute; reflexivity).
  destruct (@failed_request_is_reported Zod3.zod3 network_error (with_form plain_form))
    as (Hnetwork & _); try (vm_compute; reflexivity).
  split; [exact Herror|]. split; [exact Hform | exact Hnetwork].
Defined.

(** A response with status 200 empties the form. *)
Lemma successful_request_resets_form_witness :
  formData (fst (@submit Zod3.zod3 ok_200 (with_form plain_form))) = emptyForm.
Proof.
  apply (@successful_request_resets_form Zod3.zod3
           {| ok := true; status := 200 |} (with_form plain_form));
    vm_compute; reflexivity.
Defined.

(** C5 as stated fails: after a change event of the hidden input the form
    still validates, the request is sent, and its payload carries what the
    input was given. *)
Lemma honeypot_value_is_sent :
  (fst <$> @run Zod3.zod3 bot_events initialPage)
  = Some {| store := with_form bot_form; awaiting := false |}
  /\ (snd <$> @run Zod3.zod3 (bot_events ++ [EvSubmit]) initialPage)
     = Some [preventDefault; fetch WORKER_ENDPOINT (request bot_form)]
  /\ payload bot_form
     = [ (lit "name", Some (lit "Ada"));
         (lit "email", Some (lit "ada@example.com"));
         (lit "eventDate", None); (lit "eventType", None);
         (lit "location", None); (lit "message", Some (lit "Hello"));
         (lit "_gotcha", Some (lit "bot")) ]
  /\ ~ In (lit "_gotcha", Some []) (payload bot_form)
  /\ honeypot_value (with_form bot_form) <> [].
Proof.
  split; [vm_compute; reflexivity|]. split; [vm_compute; reflexivity|].
  split; [vm_compute; reflexivity|]. split.
  - vm_compute. intros Hin.
    repeat destruct Hin as [Hin|Hin]; try discriminate; exact Hin.
  - vm_compute. discriminate.
Qed.

(** A form filled in through the visible inputs is sent with an empty
    honeypot. *)
Lemma honeypot_is_sent_as_held_witness :
  @valid Zod3.zod3 plain_form = true
  /\ In (lit "_gotcha", Some []) (payload plain_form)
  /\ Forall sends_empty_honeypot
       [preventDefault; fetch WORKER_ENDPOINT (request plain_form)].
Proof.
  destruct (@honeypot_is_sent_as_held Zod3.zod3 ok_200 (with_form plain_form))
    as [(init & _ & _ & Hin & _) Hruns]; [vm_compute; reflexivity|].
  split; [vm_compute; reflexivity|]. split; [exact Hin|].
  apply (Hruns (plain_events ++ [EvSubmit])
               {| store := {| formData := plain_form; isSubmitting := true;
                              errors := ∅; submitError := None |};
                  awaiting := true |});
    vm_compute; reflexivity.
Defined.

(** The flag is set while the request of a valid form is under way, and
    the button is ready again after a failed request and after a failed
    validation. *)
Lemma isSubmitting_only_while_request_pending_witness :
  isSubmitting (state_of (@handleSubmit_sync Zod3.zod3 plain_form (with_form plain_form)))
  = true
  /\ button_ready (fst (@submit Zod3.zod3 error_500 (with_form plain_form)))
  /\ button_ready (fst (@submit Zod3.zod3 ok_200 (with_form bad_form))).
Proof.
  destruct (@isSubmitting_only_while_request_pending Zod3.zod3 error_500
              (with_form plain_form)) as (Hset & Hreset & _).
  destruct (@isSubmitting_only_while_request_pending Zod3.zod3 ok_200
              (with_form bad_form)) as (_ & _ & _ & Hidle & _).
  split; [etransitivity; [exact Hset | vm_compute; reflexivity]|].
  split.
  - apply Hreset. vm_compute; reflexivity.
  - apply Hidle. reflexivity.
Defined.


(** From the home page to the contact page and on to an anchor of it: the
    second and the third render scroll. *)
Lemma navigation_scrolls_to_top_witness :
  ScrollToTop.renders [home; contact_page; contact_anchor] None !! 2%nat
  = Some [ScrollToTop.scrollTo
            {| ScrollToTop.top := 0; ScrollToTop.left := 0;
               ScrollToTop.behavior := ScrollToTop.smooth |}].
Proof.
  apply (ScrollToTopFacts.navigation_scrolls_to_top
           [home; contact_page; contact_anchor] None 1 contact_page contact_anchor).
  - reflexivity.
  - reflexivity.
  - right. vm_compute. discriminate.
Defined.

End Closed.

(** ** Further results on strings *)

Module TrimFacts.
Import Js JsFacts Derived.

Lemma trimStart_app_white_space (pre s : jsstring) :
  forallb is_white_space pre = true -> trimStart (pre ++ s) = trimStart s.
Proof.
  induction pre as [|c rest IH]; cbn [app forallb]; [reflexivity|].
  intros Hall. apply andb_prop in Hall as [Hc Hrest].
  cbn [trimStart]. rewrite Hc. exact (IH Hrest).
Qed.

Lemma trimStart_app_kept (s post : jsstring) :
  trimStart s <> [] -> trimStart (s ++ post) = trimStart s ++ post.
Proof.
  induction s as [|c rest IH]; cbn [app trimStart]; [intros Hne; contradiction|].
  destruct (is_white_space c); [exact IH | reflexivity].
Qed.

(** White space around a string does not change what it trims to. *)
Lemma trim_padded (pre post s : jsstring) :
  forallb is_white_space pre = true ->
  forallb is_white_space post = true ->
  trim (pre ++ s ++ post) = trim s.
Proof.
  intros Hpre Hpost. unfold trim.
  rewrite (trimStart_app_white_space pre _ Hpre).
  destruct (trimStart s) as [|c t] eqn:Hs.
  - apply trimStart_nil_all_white_space in Hs.
    rewrite trimStart_all_white_space; [reflexivity|].
    rewrite forallb_app, Hs, Hpost. reflexivity.
  - rewrite trimStart_app_kept; [|rewrite Hs; discriminate].
    rewrite Hs. unfold trimEnd. rewrite rev_app_distr.
    rewrite trimStart_app_white_space; [reflexivity|].
    rewrite forallb_reverse. exact Hpost.
Qed.

Lemma trimStart_head (s : jsstring) :
  match trimStart s with
  | [] => true
  | c :: _ => negb (is_white_space c)
  end = true.
Proof.
  induction s as [|c rest IH]; cbn [trimStart]; [reflexivity|].
  destruct (is_white_space c) eqn:Hc; [exact IH|]. rewrite Hc. reflexivity.
Qed.

Lemma trimStart_suffix (s : jsstring) : exists pre, s = pre ++ trimStart s.
Proof.
  induction s as [|c rest [pre IH]]; cbn [trimStart]; [exists []; reflexivity|].
  destruct (is_white_space c).
  - exists (c :: pre). cbn. rewrite <- IH. reflexivity.
  - exists []. reflexivity.
Qed.

(** What [trim] returns neither starts nor ends with white space. *)
Lemma trim_unpadded (s : jsstring) : unpadded (trim s) = true.
Proof.
  unfold unpadded, trim, trimEnd. rewrite rev_involutive.
  rewrite (trimStart_head (rev (trimStart s))), andb_true_r.
  destruct (trimStart_suffix (rev (trimStart s))) as [pre Hpre].
  apply (f_equal (@rev N)) in Hpre.
  rewrite rev_involutive, rev_app_distr in Hpre.
  pose proof (trimStart_head s) as Hhead. rewrite Hpre in Hhead.
  destruct (rev (trimStart (rev (trimStart s)))) as [|c t]; [reflexivity|].
  exact Hhead.
Qed.

End TrimFacts.

(** ** Further results on the contact form *)

Module FormFacts.
Import Js Contact Schema Spec JsFacts ContactFacts Derived TrimFacts.

(** *** handleChange *)

(** Reading a property after a change event: the property the event names
    holds the value of the event, and each of the other six holds what it
    held before. *)
Theorem handleChange_lookup (n v k : jsstring) (prev : FormData) :
  In k field_names ->
  get (handleChange n v prev) k
  = if bool_decide (n = k) then Some v else get prev k.
Proof.
  unfold field_names, handleChange. intros Hk.
  repeat (destruct Hk as [<-|Hk];
          [repeat case_bool_decide; subst; try discriminate; reflexivity|]).
  destruct Hk.
Qed.

(** A second change of the same input overwrites the first, and changes of
    two different inputs give the same form in either order. *)
Theorem handleChange_overwrites_and_commutes
    (n1 n2 v1 v2 : jsstring) (prev : FormData) :
  handleChange n1 v2 (handleChange n1 v1 prev) = handleChange n1 v2 prev
  /\ (n1 <> n2 ->
      handleChange n1 v1 (handleChange n2 v2 prev)
      = handleChange n2 v2 (handleChange n1 v1 prev)).
Proof.
  unfold handleChange. split.
  - repeat case_bool_decide; reflexivity.
  - intros Hne. repeat case_bool_decide; subst; try reflexivity; try contradiction;
      discriminate.
Qed.

Section Form.
Context `{Zod.ZodLib}.

(** Change events are accepted whatever the page, with no effect, and do
    not alter whether a handler waits. *)
Lemma run_changes (evs : list Event) :
  forall p : Page,
    only_changes evs = true ->
    exists p', run evs p = Some (p', []) /\ awaiting p' = awaiting p.
Proof.
  induction evs as [|ev rest IH]; intros p; cbn [only_changes forallb run].
  - intros _. exists p. split; reflexivity.
  - destruct ev as [n v| |outcome]; try discriminate.
    cbn [andb step]. intros Hrest.
    destruct (IH {| store := change n v (store p); awaiting := awaiting p |} Hrest)
      as (p' & Hrun & Hawait).
    exists p'. rewrite Hrun. split; [reflexivity | exact Hawait].
Qed.

Lemma run_app (evs1 evs2 : list Event) :
  forall p : Page,
    run (evs1 ++ evs2) p
    = match run evs1 p with
      | Some (p1, e1) =>
          match run evs2 p1 with
          | Some (p2, e2) => Some (p2, e1 ++ e2)
          | None => None
          end
      | None => None
      end.
Proof.
  induction evs1 as [|ev rest IH]; intros p; cbn [app run].
  - destruct (run evs2 p) as [[p2 e2]|]; reflexivity.
  - destruct (step ev p) as [[p1 e1]|]; [|reflexivity].
    rewrite IH. destruct (run rest p1) as [[p2 e2]|]; [|reflexivity].
    destruct (run evs2 p2) as [[p3 e3]|]; [|reflexivity].
    rewrite app_assoc. reflexivity.
Qed.

(** Change events alone are always accepted, send nothing and show
    nothing, and leave the loading flag, the recorded messages and the
    submit error as they are: editing does not clear an earlier message. *)
Theorem editing_is_silent (evs : list Event) (p : Page) :
  only_changes evs = true ->
  exists p',
    run evs p = Some (p', [])
    /\ isSubmitting (store p') = isSubmitting (store p)
    /\ errors (store p') = errors (store p)
    /\ submitError (store p') = submitError (store p)
    /\ awaiting p' = awaiting p.
Proof.
  revert p. induction evs as [|ev rest IH]; intros p; cbn [only_changes forallb run].
  - intros _. exists p. repeat split.
  - destruct ev as [n v| |outcome]; try discriminate.
    cbn [andb step]. intros Hrest.
    destruct (IH {| store := change n v (store p); awaiting := awaiting p |} Hrest)
      as (p' & Hrun & Hflag & Herrors & Herror & Hawait).
    exists p'. rewrite Hrun. repeat split; assumption.
Qed.

(** Edits made while the request is under way are lost when it succeeds,
    the form being emptied all the same, and are kept when it completes
    with a non-success status. *)
Theorem edits_during_request (evs : list Event) (p : Page) (response : Response) :
  only_changes evs = true ->
  awaiting p = true ->
  exists (p1 p2 : Page) (effects : list Effect),
    run evs p = Some (p1, [])
    /\ run (evs ++ [EvSettle (fulfilled response)]) p = Some (p2, effects)
    /\ formData (store p2)
       = (if ok response then emptyForm else formData (store p1))
    /\ awaiting p2 = false.
Proof.
  intros Hchanges Hawaiting.
  destruct (run_changes evs p Hchanges) as (p1 & Hrun & Hawait1).
  exists p1. rewrite run_app, Hrun. cbn [run step]. rewrite Hawait1, Hawaiting.
  rewrite handleSubmit_resume_eq. eexists _, _. split; [reflexivity|].
  split; [reflexivity|]. cbn [store formData request_failed awaiting].
  destruct (ok response); split; reflexivity.
Qed.

(** *** validateForm *)

(** validateForm returns true exactly when, after trimming, the name has 1
    to 100 code units, the email passes the email test and has at most 255,
    the message has 1 to 2000, and the location has at most 200. *)
Theorem validateForm_accepts_iff (fd : FormData) (st : State) :
  value_of (validateForm fd st) = true
  <-> ((1 <= length (trim (name fd)) <= 100)%nat
       /\ Zod.emailRegex_test (trim (email fd)) = true
       /\ (length (trim (email fd)) <= 255)%nat
       /\ (1 <= length (trim (message fd)) <= 2000)%nat
       /\ (length (trim (location fd)) <= 200)%nat).
Proof.
  rewrite validateForm_eq. unfold value_of. cbn [fst].
  rewrite valid_schema_check.
  unfold schema_check_fails, name_fails, email_fails, message_fails, location_fails.
  destruct (Nat.eqb_spec (length (trim (name fd))) 0),
           (Nat.ltb_spec 100 (length (trim (name fd)))),
           (Zod.emailRegex_test (trim (email fd))),
           (Nat.ltb_spec 255 (length (trim (email fd)))),
           (Nat.eqb_spec (length (trim (message fd))) 0),
           (Nat.ltb_spec 2000 (length (trim (message fd)))),
           (Nat.ltb_spec 200 (length (trim (location fd))));
    cbn; split; intros Hx; try discriminate; try reflexivity;
    try (repeat split; lia);
    try (destruct Hx as (? & ? & ? & ? & ?); try discriminate; lia).
Qed.

(** The bounds a form meets when the schema accepts it. *)
Lemma valid_bounds (fd : FormData) :
  valid fd = true ->
  (1 <= length (trim (name fd)) <= 100)%nat
  /\ Zod.emailRegex_test (trim (email fd)) = true
  /\ (length (trim (email fd)) <= 255)%nat
  /\ (1 <= length (trim (message fd)) <= 2000)%nat
  /\ (length (trim (location fd)) <= 200)%nat.
Proof.
  rewrite valid_schema_check. intros Hvalid. apply negb_true_iff in Hvalid.
  unfold schema_check_fails, name_fails, email_fails, message_fails,
    location_fails in Hvalid.
  repeat match goal with
         | Hb : _ || _ = false |- _ => apply orb_false_elim in Hb as [? ?]
         | Hb : (_ =? _)%nat = false |- _ => apply Nat.eqb_neq in Hb
         | Hb : (_ <? _)%nat = false |- _ => apply Nat.ltb_ge in Hb
         | Hb : negb _ = false |- _ => apply negb_false_iff in Hb
         end.
  repeat split; try assumption; lia.
Qed.

(** The three properties the schema does not check (eventDate, eventType
    and the honeypot) never make a form fail: validateForm gives the same
    answer whatever they hold. *)
Theorem unchecked_fields_never_fail (d t g : jsstring) (fd : FormData) (st : State) :
  value_of (validateForm (with_unchecked d t g fd) st)
  = value_of (validateForm fd st).
Proof.
  rewrite !validateForm_eq. unfold value_of. cbn [fst].
  rewrite !valid_schema_check. reflexivity.
Qed.

Lemma fold_errors_key (l : list Zod.ZodIssue) :
  forall (acc : gmap jsstring jsstring) (k : jsstring),
    is_Some
      (fold_left
         (fun acc err =>
            match Zod.path err with
            | key :: _ => if truthy key then <[key := Zod.message err]> acc else acc
            | [] => acc
            end) l acc !! k) ->
    is_Some (acc !! k) \/ exists err, In err l /\ head (Zod.path err) = Some k.
Proof.
  induction l as [|e rest IH]; intros acc k; cbn [fold_left]; [left; assumption|].
  intros Hk. destruct (IH _ k Hk) as [Hacc|(err & Hin & Hpath)].
  - destruct (Zod.path e) as [|key tl] eqn:Hp; [left; exact Hacc|].
    destruct (truthy key); [|left; exact Hacc].
    destruct (decide (key = k)) as [->|Hne].
    + right. exists e. split; [left; reflexivity | rewrite Hp; reflexivity].
    + left. rewrite lookup_insert_ne in Hacc; assumption.
  - right. exists err. split; [right; exact Hin | exact Hpath].
Qed.

Lemma issues_paths (fd : FormData) (err : Zod.ZodIssue) :
  In err (issues fd) ->
  In (Zod.path err) [[lit "name"]; [lit "email"]; [lit "message"]; [lit "location"]].
Proof.
  rewrite issues_by_field.
  unfold name_issues, email_issues, location_issues, message_issues.
  intros Hin. repeat (apply in_app_or in Hin; destruct Hin as [Hin|Hin]);
    repeat match type of Hin with
           | In _ (if ?b then _ else _) => destruct b
           end;
    cbn [In] in Hin; try contradiction;
    destruct Hin as [<-|[]]; cbn [Zod.path Zod.addIssue In]; tauto.
Qed.

(** After an invocation of handleSubmit the recorded messages are those of
    this invocation only: a key holds a message only when validation failed
    and the key is name, email, message or location, whatever was recorded
    before. *)
Theorem errors_are_replaced (outcome : FetchOutcome) (st : State) (k : jsstring) :
  is_Some (errors (fst (submit outcome st)) !! k) ->
  value_of (validateForm (formData st) st) = false
  /\ In k [lit "name"; lit "email"; lit "message"; lit "location"].
Proof.
  rewrite submit_eq, validateForm_eq. unfold value_of. cbn [fst].
  destruct (valid (formData st)); cbn [fst errors].
  - rewrite lookup_empty. intros [x Hx]. discriminate.
  - intros Hk. split; [reflexivity|].
    destruct (fold_errors_key _ _ _ Hk) as [Hempty|(err & Hin & Hpath)].
    + rewrite lookup_empty in Hempty. destruct Hempty as [x Hx]. discriminate.
    + apply issues_paths in Hin. cbn [In] in Hin.
      destruct Hin as [Hp|[Hp|[Hp|[Hp|[]]]]]; rewrite <- Hp in Hpath;
        injection Hpath as <-; cbn [In]; tauto.
Qed.

(** An email that fails the email test and is also longer than 255 after
    trimming gets two issues, and the message recorded for it is that of
    the length check, the later of the two. *)
Theorem long_invalid_email_message (outcome : FetchOutcome) (st : State) :
  Zod.emailRegex_test (trim (email (formData st))) = false ->
  (255 < length (trim (email (formData st))))%nat ->
  errors (fst (submit outcome st)) !! lit "email"
  = Some (Zod.errorMap (Zod.too_big 255))
  /\ In (Zod.addIssue [lit "email"] Zod.invalid_string_email) (issues (formData st))
  /\ In (Zod.addIssue [lit "email"] (Zod.too_big 255)) (issues (formData st)).
Proof.
  intros Htest Hlong. apply Nat.ltb_lt in Hlong.
  assert (Hinvalid : valid (formData st) = false).
  { rewrite valid_schema_check. unfold schema_check_fails, email_fails.
    rewrite Htest. cbn. rewrite orb_true_r. reflexivity. }
  rewrite submit_eq, Hinvalid. cbn [fst errors].
  destruct (newErrors_by_field (formData st)) as (_ & -> & _).
  rewrite Hlong. split; [reflexivity|].
  rewrite issues_by_field. unfold email_issues. rewrite Htest, Hlong.
  split; apply in_or_app; right; apply in_or_app; left; cbn; tauto.
Qed.

(** White space put around the name, the email, the message and the
    location changes neither the answer of validateForm nor the request
    that is sent. *)
Theorem surrounding_white_space_is_ignored
    (pre post : jsstring) (fd : FormData) (st : State) :
  forallb is_white_space pre = true ->
  forallb is_white_space post = true ->
  value_of (validateForm (pad_fields pre post fd) st)
  = value_of (validateForm fd st)
  /\ request (pad_fields pre post fd) = request fd.
Proof.
  intros Hpre Hpost. rewrite !validateForm_eq. unfold value_of. cbn [fst].
  rewrite !valid_schema_check.
  unfold schema_check_fails, name_fails, email_fails, message_fails,
    location_fails, request, payload, pad_fields.
  cbn [name email eventDate eventType location message _gotcha].
  rewrite !(trim_padded pre post _ Hpre Hpost). split; reflexivity.
Qed.

(** *** handleSubmit *)

(** Every request that is sent carries a name of 1 to 100 code units, an
    email that passes the email test with at most 255, a message of 1 to
    2000 and, when it holds a location, one of 1 to 200; none of them starts
    or ends with white space. *)
Theorem sent_values_are_within_bounds
    (outcome : FetchOutcome) (st : State) (url : jsstring) (init : RequestInit) :
  In (url, init) (requests (snd (submit outcome st))) ->
  exists (n e m : jsstring) (l : option jsstring),
    body init
    = JSON_stringify
        [ (lit "name", Some n); (lit "email", Some e);
          (lit "eventDate", or_undefined (eventDate (formData st)));
          (lit "eventType", or_undefined (eventType (formData st)));
          (lit "location", l); (lit "message", Some m);
          (lit "_gotcha", Some (_gotcha (formData st))) ]
    /\ (1 <= length n <= 100)%nat /\ unpadded n = true
    /\ Zod.emailRegex_test e = true /\ (length e <= 255)%nat /\ unpadded e = true
    /\ (1 <= length m <= 2000)%nat /\ unpadded m = true
    /\ (forall v, l = Some v -> (1 <= length v <= 200)%nat /\ unpadded v = true).
Proof.
  rewrite submit_eq. destruct (valid (formData st)) eqn:Hvalid; [|intros []].
  cbn [snd requests omap In]. intros [Hreq|[]]. injection Hreq as _ <-.
  apply valid_bounds in Hvalid as (Hn & He & Hel & Hm & Hl).
  exists (trim (name (formData st))), (trim (email (formData st))),
    (trim (message (formData st))), (or_undefined (trim (location (formData st)))).
  rewrite !trim_unpadded.
  split; [reflexivity|]. split; [lia|]. split; [reflexivity|].
  split; [assumption|]. split; [lia|]. split; [reflexivity|].
  split; [lia|]. split; [reflexivity|].
  intros v Hv. unfold or_undefined in Hv.
  destruct (trim (location (formData st))) as [|c t] eqn:Hloc; [discriminate|].
  cbn [truthy] in Hv. injection Hv as <-. split.
  - cbn [length] in *. lia.
  - rewrite <- Hloc. apply trim_unpadded.
Qed.

(** Every invocation of handleSubmit prevents the default submission of the
    form, once and before anything else, also when validation fails. *)
Theorem default_submission_is_prevented (outcome : FetchOutcome) (st : State) :
  exists rest,
    snd (submit outcome st) = preventDefault :: rest
    /\ ~ In preventDefault rest.
Proof.
  rewrite submit_eq. destruct (valid (formData st)); eexists; split;
    try reflexivity; cbn [In]; intros Hin;
    repeat destruct Hin as [Hin|Hin]; try discriminate; exact Hin.
Qed.

(** After a successful submission the form is empty, so submitting again
    without editing sends nothing and records a message for the name and
    for the message; the same holds for the form as the page opens. *)
Theorem resubmission_after_success_is_rejected
    (response : Response) (outcome : FetchOutcome) (st : State) :
  valid (formData st) = true ->
  ok response = true ->
  requests (snd (submit outcome (fst (submit (fulfilled response) st)))) = []
  /\ is_Some (errors (fst (submit outcome (fst (submit (fulfilled response) st))))
                !! lit "name")
  /\ is_Some (errors (fst (submit outcome (fst (submit (fulfilled response) st))))
                !! lit "message")
  /\ requests (snd (submit outcome initialState)) = [].
Proof.
  intros Hvalid Hok.
  assert (Hempty : valid emptyForm = false).
  { rewrite valid_schema_check. reflexivity. }
  rewrite (submit_eq (fulfilled response) st), Hvalid. cbn [request_failed].
  rewrite Hok. cbn [negb fst].
  rewrite !submit_eq. cbn [formData initialState]. rewrite Hempty. cbn [fst snd errors].
  destruct (newErrors_by_field emptyForm) as (-> & _ & -> & _).
  repeat split; try reflexivity; eexists; reflexivity.
Qed.

(** A request rejected with an Error sets submitError to the message of the
    Error and shows it in the toast; the banner shows it too unless it is
    the empty string, for which nothing is rendered.  A non-success status
    always shows the banner. *)
Theorem banner_of_failed_request (reason_message : jsstring) (response : Response)
    (st : State) :
  valid (formData st) = true ->
  ok response = false ->
  submitError (fst (submit (rejected (ErrorObject reason_message)) st))
  = Some reason_message
  /\ toasts (snd (submit (rejected (ErrorObject reason_message)) st))
     = [ {| title := lit "Submission Failed"; description := reason_message;
            variant := Some destructive |} ]
  /\ banner (fst (submit (rejected (ErrorObject reason_message)) st))
     = match reason_message with [] => None | _ :: _ => Some reason_message end
  /\ banner (fst (submit (fulfilled response) st))
     = Some (lit "Request failed (" ++ NumberToString (status response) ++ lit ")").
Proof.
  intros Hvalid Hfailed. rewrite !submit_eq, Hvalid. cbn [request_failed].
  rewrite Hfailed. cbn [negb fst snd submitError toasts omap failure_message].
  repeat split. destruct reason_message; reflexivity.
Qed.

End Form.
End FormFacts.

(** ** Further results on the scroll-to-top component *)

Module RouteFacts.
Import Js ScrollToTop ScrollToTopFacts Derived.

(** A navigation that keeps the pathname and the hash, such as one that
    changes the query string only, does not scroll. *)
Theorem same_route_does_not_scroll
    (locs : list Location) (cell : HookCell) (i : nat) (before after : Location) :
  locs !! i = Some before ->
  locs !! S i = Some after ->
  pathname after = pathname before ->
  hash after = hash before ->
  renders locs cell !! S i = Some [].
Proof.
  intros Hbefore Hafter Hp Hh.
  rewrite (renders_lookup_next locs cell i before after Hbefore Hafter).
  unfold ScrollToTop, useEffect, areHookInputsEqual. rewrite Hp, Hh.
  rewrite bool_decide_eq_true_2; reflexivity.
Qed.

Lemma renders_count (locs : list Location) :
  forall prev : Location,
    length (concat (renders locs (Some [pathname prev; hash prev])))
    = route_changes prev locs.
Proof.
  induction locs as [|loc rest IH]; intros prev; [reflexivity|].
  cbn [renders route_changes].
  destruct (ScrollToTop loc (Some [pathname prev; hash prev])) as [effects cell']
    eqn:Hrender.
  assert (Hcell : cell' = Some [pathname loc; hash loc]).
  { rewrite <- (ScrollToTop_cell loc (Some [pathname prev; hash prev])), Hrender.
    reflexivity. }
  subst cell'. cbn [concat]. rewrite length_app, IH. f_equal.
  unfold ScrollToTop, useEffect, areHookInputsEqual in Hrender. unfold same_route.
  repeat case_bool_decide; cbn [andb]; injection Hrender as <-; try reflexivity;
    congruence.
Qed.

(** From its first render on, the component scrolls once for the first
    render and once for each step that changes the pathname or the hash,
    and never otherwise. *)
Theorem scrolls_once_per_route_change (loc : Location) (rest : list Location) :
  length (concat (renders (loc :: rest) None))
  = S (route_changes loc rest).
Proof.
  cbn [renders ScrollToTop useEffect concat]. rewrite length_app.
  rewrite renders_count. reflexivity.
Qed.

End RouteFacts.

(** ** Closed examples of the further results *)

Module ClosedMore.
Import Js Contact Schema Spec Examples ContactFacts Derived FormFacts.

(** After a change of the email input the email reads back as given and
    the name as before. *)
Lemma handleChange_lookup_witness :
  get (handleChange (lit "email") (lit "eve@example.com") plain_form) (lit "email")
  = Some (lit "eve@example.com")
  /\ get (handleChange (lit "email") (lit "eve@example.com") plain_form) (lit "name")
     = Some (lit "Ada").
Proof.
  split.
  - rewrite (handleChange_lookup (lit "email") (lit "eve@example.com") (lit "email")
               plain_form); [reflexivity|].
    vm_compute. tauto.
  - rewrite (handleChange_lookup (lit "email") (lit "eve@example.com") (lit "name")
               plain_form); [reflexivity|].
    vm_compute. tauto.
Defined.

(** Typing the name and the message in either order gives the same form. *)
Lemma handleChange_overwrites_and_commutes_witness :
  handleChange (lit "name") (lit "Ada")
    (handleChange (lit "message") (lit "Hello") emptyForm)
  = handleChange (lit "message") (lit "Hello")
      (handleChange (lit "name") (lit "Ada") emptyForm).
Proof.
  apply (handleChange_overwrites_and_commutes (lit "name") (lit "message")
           (lit "Ada") (lit "Hello") emptyForm).
  vm_compute. discriminate.
Defined.

(** Filling the form in again after a failed request keeps the banner. *)
Lemma editing_is_silent_witness :
  exists p',
    @run Zod3.zod3 plain_events
      {| store := after_failure bad_form; awaiting := false |} = Some (p', [])
    /\ submitError (store p') = Some (lit "Request failed (500)").
Proof.
  destruct (@editing_is_silent Zod3.zod3 plain_events
              {| store := after_failure bad_form; awaiting := false |} eq_refl)
    as (p' & Hrun & _ & _ & Herror & _).
  exists p'. split; [exact Hrun | exact Herror].
Defined.

(** The visitor submits, then clears the message while the request is
    under way; the success empties the form. *)
Lemma edits_during_request_witness :
  exists (p1 p2 : Page) (effects : list Effect),
    @run Zod3.zod3 [EvChange (lit "message") []]
      {| store := {| formData := plain_form; isSubmitting := true; errors := ∅;
                     submitError := None |};
         awaiting := true |} = Some (p1, [])
    /\ @run Zod3.zod3 ([EvChange (lit "message") []] ++ [EvSettle ok_200])
         {| store := {| formData := plain_form; isSubmitting := true; errors := ∅;
                        submitError := None |};
            awaiting := true |} = Some (p2, effects)
    /\ formData (store p2) = emptyForm.
Proof.
  destruct (@edits_during_request Zod3.zod3 [EvChange (lit "message") []]
              {| store := {| formData := plain_form; isSubmitting := true;
                             errors := ∅; submitError := None |};
                 awaiting := true |}
              {| ok := true; status := 200 |} eq_refl eq_refl)
    as (p1 & p2 & effects & Hrun1 & Hrun2 & Hform & _).
  exists p1, p2, effects. split; [exact Hrun1|]. split; [exact Hrun2 | exact Hform].
Defined.

(** The plain form is accepted, and its name has between 1 and 100 code
    units after trimming. *)
Lemma validateForm_accepts_iff_witness :
  value_of (@validateForm Zod3.zod3 plain_form initialState) = true
  /\ (1 <= length (trim (name plain_form)) <= 100)%nat.
Proof.
  split; [vm_compute; reflexivity|].
  apply (@validateForm_accepts_iff Zod3.zod3 plain_form initialState).
  vm_compute. reflexivity.
Defined.

(** The name of the bad form has a message after the submission, and so
    the validation had failed. *)
Lemma errors_are_replaced_witness :
  is_Some (errors (fst (@submit Zod3.zod3 ok_200 (with_form bad_form))) !! lit "name")
  /\ value_of (@validateForm Zod3.zod3 bad_form (with_form bad_form)) = false.
Proof.
  assert (Hk : is_Some (errors (fst (@submit Zod3.zod3 ok_200 (with_form bad_form)))
                          !! lit "name")).
  { vm_compute. eexists. reflexivity. }
  split; [exact Hk|].
  exact (proj1 (@errors_are_replaced Zod3.zod3 ok_200 (with_form bad_form)
                  (lit "name") Hk)).
Defined.

(** An email of 300 letters and no at sign gets the message of the length
    check. *)
Lemma long_invalid_email_message_witness :
  errors (fst (@submit Zod3.zod3 ok_200 (with_form long_invalid_email_form)))
    !! lit "email"
  = Some (lit "String must contain at most 255 character(s)").
Proof.
  destruct (@long_invalid_email_message Zod3.zod3 ok_200
              (with_form long_invalid_email_form)) as (Hmsg & _).
  - vm_compute. reflexivity.
  - vm_compute. lia.
  - rewrite Hmsg. vm_compute. reflexivity.
Defined.

(** A tab before and a line feed after each field of the plain form change
    neither the validation nor the request. *)
Lemma surrounding_white_space_is_ignored_witness :
  value_of (@validateForm Zod3.zod3 (pad_fields [9] [10] plain_form) initialState)
  = true
  /\ request (pad_fields [9] [10] plain_form) = request plain_form.
Proof.
  destruct (@surrounding_white_space_is_ignored Zod3.zod3 [9] [10] plain_form
              initialState) as (Hvalid & Hrequest); try reflexivity.
  split; [rewrite Hvalid; vm_compute; reflexivity | exact Hrequest].
Defined.

(** The request of the form with spaces around its values carries a name
    that is trimmed and within the bounds. *)
Lemma sent_values_are_within_bounds_witness :
  exists (n e m : jsstring) (l : option jsstring),
    body (request full_form)
    = JSON_stringify
        [ (lit "name", Some n); (lit "email", Some e);
          (lit "eventDate", or_undefined (eventDate full_form));
          (lit "eventType", or_undefined (eventType full_form));
          (lit "location", l); (lit "message", Some m);
          (lit "_gotcha", Some (_gotcha full_form)) ]
    /\ (1 <= length n <= 100)%nat /\ unpadded n = true.
Proof.
  destruct (@sent_values_are_within_bounds Zod3.zod3 ok_200 (with_form full_form)
              WORKER_ENDPOINT (request full_form))
    as (n & e & m & l & Hbody & Hn & Hun & _).
  - vm_compute. tauto.
  - exists n, e, m, l. split; [exact Hbody|]. split; [exact Hn | exact Hun].
Defined.

(** Submitting twice in a row: the second attempt sends nothing. *)
Lemma resubmission_after_success_is_rejected_witness :
  requests (snd (@submit Zod3.zod3 ok_200
                   (fst (@submit Zod3.zod3 ok_200 (with_form plain_form))))) = [].
Proof.
  apply (@resubmission_after_success_is_rejected Zod3.zod3
           {| ok := true; status := 200 |} ok_200 (with_form plain_form));
    vm_compute; reflexivity.
Defined.

(** A rejection with an Error of empty message shows no banner; a response
    with status 500 shows one. *)
Lemma banner_of_failed_request_witness :
  banner (fst (@submit Zod3.zod3 (rejected (ErrorObject [])) (with_form plain_form)))
  = None
  /\ banner (fst (@submit Zod3.zod3 error_500 (with_form plain_form)))
     = Some (lit "Request failed (500)").
Proof.
  destruct (@banner_of_failed_request Zod3.zod3 [] {| ok := false; status := 500 |}
              (with_form plain_form)) as (_ & _ & Hnone & Hshown);
    try (vm_compute; reflexivity).
  split; [exact Hnone | exact Hshown].
Defined.

(** From the contact page to the same page with a query string: no scroll. *)
Lemma same_route_does_not_scroll_witness :
  ScrollToTop.renders [home; contact_page; contact_query] None !! 2%nat = Some [].
Proof.
  apply (RouteFacts.same_route_does_not_scroll [home; contact_page; contact_query]
           None 1 contact_page contact_query); reflexivity.
Defined.

End ClosedMore.

(** ** Results on the page with its rendered inputs *)

Module SessionFacts.
Import Js Contact Schema Spec JsFacts ContactFacts Session.



Section Page.
Context `{Zod.ZodLib}.



(** Every run of the page with its submit button is a run of the session:
    the session only allows more. *)
Lemma run_dispatch_all (evs : list Event) :
  forall (p p' : Page) (effects : list Effect),
    run evs p = Some (p', effects) ->
    isSubmitting (store p) = awaiting p ->
    dispatch_all evs
      {| view := store p; under_way := if awaiting p then 1 else 0 |}
    = ({| view := store p'; under_way := if awaiting p' then 1 else 0 |}, effects).
Proof.
  induction evs as [|ev rest IH]; intros p p' effects; cbn [run dispatch_all].
  - intros Hrun _. injection Hrun as <- <-. reflexivity.
  - destruct (step ev p) as [[p1 e1]|] eqn:Hstep; [|discriminate].
    destruct (run rest p1) as [[p2 e2]|] eqn:Hrest; [|discriminate].
    intros Hrun Hinv. injection Hrun as <- <-.
    pose proof (step_awaiting ev p p1 e1 Hstep Hinv) as Hinv1.
    assert (Hone : dispatch ev {| view := store p;
                                  under_way := if awaiting p then 1 else 0 |}
                   = ({| view := store p1;
                         under_way := if awaiting p1 then 1 else 0 |}, e1)).
    { destruct ev as [n v| |outcome]; cbn [step dispatch view under_way] in *.
      - injection Hstep as <- <-. reflexivity.
      - unfold button_disabled in Hstep. rewrite <- Hinv.
        destruct (isSubmitting (store p)); [discriminate|].
        rewrite handleSubmit_sync_eq in *. injection Hstep as <- <-.
        cbn [awaiting]. destruct (valid (formData (store p))); reflexivity.
      - destruct (awaiting p); [|discriminate].
        rewrite handleSubmit_resume_eq in *. injection Hstep as <- <-.
        reflexivity. }
    rewrite Hone, (IH p1 p2 e2 Hrest Hinv1). reflexivity.
Qed.


(** *** Requests and toasts *)

Lemma dispatch_balance (ev : Event) (s : Session) :
  (length (requests (snd (dispatch ev s))) + under_way s
   = length (toasts (snd (dispatch ev s))) + under_way (fst (dispatch ev s)))%nat.
Proof.
  destruct ev as [n v| |outcome]; cbn [dispatch].
  - reflexivity.
  - rewrite handleSubmit_sync_eq. cbn [fst snd under_way].
    destruct (valid (formData (view s))); cbn; lia.
  - destruct (under_way s) as [|n] eqn:Hn; [cbn; lia|].
    rewrite handleSubmit_resume_eq. cbn. lia.
Qed.

Lemma dispatch_all_balance (evs : list Event) :
  forall s : Session,
    (length (requests (snd (dispatch_all evs s))) + under_way s
     = length (toasts (snd (dispatch_all evs s)))
       + under_way (fst (dispatch_all evs s)))%nat.
Proof.
  induction evs as [|ev rest IH]; intros s; cbn [dispatch_all]; [reflexivity|].
  pose proof (dispatch_balance ev s) as Hstep.
  destruct (dispatch ev s) as [s1 e1]. cbn [fst snd] in Hstep.
  pose proof (IH s1) as Hrest.
  destruct (dispatch_all rest s1) as [s2 e2]. cbn [fst snd] in *.
  unfold requests, toasts in *. rewrite !omap_app, !length_app. lia.
Qed.

(** Along any sequence of change, submit and settle events from the opening
    of the page, submit events while a request is under way included, the
    requests sent number the toasts shown plus the requests still under
    way: every settled request produced exactly one toast, and no toast is
    shown otherwise. *)
Theorem requests_balance_toasts (evs : list Event) :
  length (requests (snd (dispatch_all evs initialSession)))
  = (length (toasts (snd (dispatch_all evs initialSession)))
     + under_way (fst (dispatch_all evs initialSession)))%nat.
Proof.
  pose proof (dispatch_all_balance evs initialSession) as Hbal.
  cbn [initialSession under_way] in Hbal. lia.
Qed.

End Page.
End SessionFacts.

(** ** Closed examples on the page *)

Module ClosedSession.
Import Js Contact Schema Spec Examples Session SessionFacts.


End ClosedSession.
